(** * AmazeIng: the configuration loaders

    A shallow embedding of [src/exception.py] (class [ConfigParsing]) and
    [src/config_parser.py] (class [ConfigParser]), and the properties of the
    loaders stated over it.

    Layout:
    - [Py]: the Python built-ins the two loaders call ([str.strip],
      [str.lower], [str.split], [in], [str.startswith], [int], [str] on
      integers and pairs, iteration over a text file);
    - [ConfigParsing]: [parse_line] and [parse] of [src/exception.py];
    - [ConfigParser]: [parse] of [src/config_parser.py], with the loader's
      [config] dictionary as explicit state;
    - the theorems.

    A Python [str] is a [string]; a character is a code point below 256.
    A Python [int] is a [Z].  An exception is a value of [exn]; code that can
    raise returns a [result]. *)

From Stdlib Require Import ZArith NArith Ascii String List DecimalString Lia.
From stdpp Require Import base option gmap strings list.

Local Open Scope string_scope.
Local Open Scope Z_scope.

(** ** Exceptions and results *)

(** The exception classes raised by the two files: the three defined in
    [src/exception.py] (lines 11-23) and the built-in ones raised by
    [src/config_parser.py].  Each carries its message. *)
Inductive exn : Type :=
| ConfigError (msg : string)
| InvalidDimensionsError (msg : string)
| InvalidCoordinatesError (msg : string)
| ValueError (msg : string)
| FileNotFoundError (msg : string).

Definition message (e : exn) : string :=
  match e with
  | ConfigError m | InvalidDimensionsError m | InvalidCoordinatesError m
  | ValueError m | FileNotFoundError m => m
  end.

Inductive result (A : Type) : Type :=
| Ok (a : A)
| Raise (e : exn).
Arguments Ok {A} a.
Arguments Raise {A} e.

(** Sequencing: an exception raised by the first computation skips the rest.
    This gives the notation [x ← r; k]. *)
#[global] Instance result_ret : MRet result := λ A a, Ok a.
#[global] Instance result_bind : MBind result := λ A B k r,
  match r with
  | Ok a => k a
  | Raise e => Raise e
  end.

(** [for x in xs: body], where the body may raise: the loop stops at the first
    exception. *)
Fixpoint for_each {A S : Type} (body : S → A → result S) (xs : list A)
    (s : S) : result S :=
  match xs with
  | [] => Ok s
  | x :: xs' => s' ← body s x; for_each body xs' s'
  end.

(** ** Python built-ins *)

Module Py.

Definition code (c : ascii) : N := N_of_ascii c.

Definition between (lo hi n : N) : bool := ((lo <=? n) && (n <=? hi))%N.

(** [str.isspace] on one character: the characters [str.strip()] removes.
    Below 256 these are TAB..CR, FS..US, SPACE, NEL and NBSP. *)
Definition is_space (c : ascii) : bool :=
  between 9 13 (code c) || between 28 32 (code c)
  || (code c =? 133)%N || (code c =? 160)%N.

(** [str.lower] on one character: A-Z, and in Latin-1 the capital letters
    0xC0-0xDE except the multiplication sign 0xD7, move up by 32. *)
Definition lower_char (c : ascii) : ascii :=
  if between 65 90 (code c)
     || (between 192 222 (code c) && negb (code c =? 215)%N)
  then ascii_of_N (code c + 32)
  else c.

Fixpoint lower (s : string) : string :=
  match s with
  | EmptyString => EmptyString
  | String c s' => String (lower_char c) (lower s')
  end.

Fixpoint lstrip (s : string) : string :=
  match s with
  | EmptyString => EmptyString
  | String c s' => if is_space c then lstrip s' else s
  end.

Fixpoint rstrip (s : string) : string :=
  match s with
  | EmptyString => EmptyString
  | String c s' =>
      match rstrip s' with
      | EmptyString => if is_space c then EmptyString else String c EmptyString
      | r => String c r
      end
  end.

Definition startswith_space (s : string) : bool :=
  match s with
  | EmptyString => false
  | String a _ => is_space a
  end.

Fixpoint endswith_space (s : string) : bool :=
  match s with
  | EmptyString => false
  | String a EmptyString => is_space a
  | String _ s' => endswith_space s'
  end.

(** [s.strip()] *)
Definition strip (s : string) : string := rstrip (lstrip s).

(** [c in s] for a one-character [c] *)
Fixpoint contains (c : ascii) (s : string) : bool :=
  match s with
  | EmptyString => false
  | String a s' => if Ascii.eqb a c then true else contains c s'
  end.

(** [s.startswith(c)] for a one-character [c] *)
Definition startswith (c : ascii) (s : string) : bool :=
  match s with
  | EmptyString => false
  | String a _ => Ascii.eqb a c
  end.

(** [not s] *)
Definition is_empty (s : string) : bool :=
  match s with
  | EmptyString => true
  | String _ _ => false
  end.

(** [s.split(c)] for a one-character [c]: the pieces between the
    occurrences of [c]; never the empty list. *)
Fixpoint split (c : ascii) (s : string) : list string :=
  match s with
  | EmptyString => [EmptyString]
  | String a s' =>
      if Ascii.eqb a c then EmptyString :: split c s'
      else match split c s' with
           | piece :: pieces => String a piece :: pieces
           | [] => [String a EmptyString]
           end
  end.

(** [s.split(c, 1)]: at most one cut, at the first [c]. *)
Fixpoint split1 (c : ascii) (s : string) : list string :=
  match s with
  | EmptyString => [EmptyString]
  | String a s' =>
      if Ascii.eqb a c then [EmptyString; s']
      else match split1 c s' with
           | piece :: pieces => String a piece :: pieces
           | [] => [String a EmptyString]
           end
  end.

(** [s.split(c)[0]] *)
Definition first_piece (c : ascii) (s : string) : string :=
  match split c s with
  | piece :: _ => piece
  | [] => EmptyString
  end.

(** *** [int(s)] *)

(** White space for [int]: the ASCII [isspace] set, and the non-ASCII
    spaces, which [int] first turns into blanks.  FS..US are not in it. *)
Definition is_int_space (c : ascii) : bool :=
  between 9 13 (code c) || (code c =? 32)%N
  || (code c =? 133)%N || (code c =? 160)%N.

Definition is_digit (c : ascii) : bool := between 48 57 (code c).

Definition digit_value (c : ascii) : Z := Z.of_N (code c) - 48.

Fixpoint skip_int_space (s : string) : string :=
  match s with
  | EmptyString => EmptyString
  | String c s' => if is_int_space c then skip_int_space s' else s
  end.

(** What the digit scanner saw last. *)
Inductive seen : Type := SeenNothing | SeenDigit | SeenUnderscore.

(** The digits of a base-10 literal: single underscores are allowed between
    digits only.  Returns the value, the number of digits and the rest. *)
Fixpoint scan_digits (p : seen) (acc : Z) (n : N) (s : string)
  : option (Z * N * string) :=
  let stop (rest : string) :=
    match p with
    | SeenDigit => Some (acc, n, rest)
    | _ => None
    end in
  match s with
  | EmptyString => stop EmptyString
  | String c s' =>
      if is_digit c then
        scan_digits SeenDigit (10 * acc + digit_value c) (n + 1)%N s'
      else if Ascii.eqb c "_"%char then
        match p with
        | SeenDigit => scan_digits SeenUnderscore acc n s'
        | _ => None
        end
      else stop s
  end.

(** CPython's default limit on the digits of a string given to [int]. *)
Definition int_max_str_digits : N := 4300.

(** [int(s)]; [None] stands for [ValueError]. *)
Definition int (s : string) : option Z :=
  let s1 := skip_int_space s in
  let '(sign, s2) :=
    match s1 with
    | String "+"%char r => (1, r)
    | String "-"%char r => (-1, r)
    | _ => (1, s1)
    end in
  match scan_digits SeenNothing 0 0%N s2 with
  | Some (v, n, rest) =>
      if is_empty (skip_int_space rest) && (n <=? int_max_str_digits)%N
      then Some (sign * v)
      else None
  | None => None
  end.

(** *** [str(n)] and [str((x, y))] *)

Definition str (n : Z) : string := NilZero.string_of_int (Z.to_int n).

Definition str_pair (p : Z * Z) : string :=
  "(" +:+ str (fst p) +:+ ", " +:+ str (snd p) +:+ ")".

(** *** Iterating over a text file

    [for line in file] on a file opened in text mode yields the lines of
    the text; a line ends at a line feed, at a carriage return, or at a
    carriage return followed by a line feed, each of which is read as a
    line feed and kept at the end of the line.  A last line without a
    terminator is yielded as it is. *)
Definition newline : ascii := ascii_of_N 10.
Definition carriage_return : ascii := ascii_of_N 13.

Definition cons_line (c : ascii) (ls : list string) : list string :=
  match ls with
  | l :: ls' => String c l :: ls'
  | [] => [String c EmptyString]
  end.

Fixpoint readlines (text : string) : list string :=
  match text with
  | EmptyString => []
  | String c rest =>
      if Ascii.eqb c newline then
        String newline EmptyString :: readlines rest
      else if Ascii.eqb c carriage_return then
        match rest with
        | String c' rest' =>
            if Ascii.eqb c' newline
            then String newline EmptyString :: readlines rest'
            else String newline EmptyString :: readlines rest
        | EmptyString => [String newline EmptyString]
        end
      else cons_line c (readlines rest)
  end.

End Py.

(** ** [src/exception.py]: class [ConfigParsing] *)

(** The file system as [parse] sees it: the decoded text of the file at a
    path, or [None] when [open] raises [FileNotFoundError].  Other failures
    of [open] and of the decoding are not part of the model. *)
Definition filesystem : Type := string → option string.

(** [a, b = pieces]: exactly two elements, else [ValueError]. *)
Definition unpack2 (pieces : list string) : option (string * string) :=
  match pieces with
  | [a; b] => Some (a, b)
  | _ => None
  end.

Module ConfigParsing.

(** [parse_line] (lines 29-51).  The unpacking of a [split] into [key, value]
    raises [ValueError] on a list that is not of length two; after the test
    [in] this cannot happen (lemma [parse_line_raise]). *)
Definition parse_line (line : string) : result (string * string) :=
  '(key, value) ←
    (if Py.contains "=" line then
       match unpack2 (Py.split1 "=" line) with
       | Some kv => Ok kv
       | None => Raise (ValueError "not enough values to unpack")
       end
     else if Py.contains ":" line then
       match unpack2 (Py.split1 ":" line) with
       | Some kv => Ok kv
       | None => Raise (ValueError "not enough values to unpack")
       end
     else Raise (ConfigError "Invalid line format: expected '=' or ':'"));
  let key := Py.lower (Py.strip key) in
  let value := Py.strip (Py.first_piece "#" value) in
  Ok (key, value).

(** The local variables of [parse] (lines 68-73). *)
Record locals : Type := Locals {
  width : option Z;
  height : option Z;
  entry : option (Z * Z);
  exit_coord : option (Z * Z);
  output_file : option string;
  algorithm : string;
}.

Definition initial : locals :=
  {| width := None; height := None; entry := None; exit_coord := None;
     output_file := None; algorithm := "recursive_backtracking" |}.

(** The dictionary [parse] returns (lines 174-181): six fixed keys. *)
Record config : Type := Config {
  cfg_width : Z;
  cfg_height : Z;
  cfg_entry : Z * Z;
  cfg_exit : Z * Z;
  cfg_output_file : string;
  cfg_algorithm : string;
}.

(** [x, y = value.split(","); (int(x.strip()), int(y.strip()))]
    (lines 107-108 and 116-117); [None] stands for the [ValueError]. *)
Definition coordinates (value : string) : option (Z * Z) :=
  '(x, y) ← unpack2 (Py.split "," value);
  x ← Py.int (Py.strip x);
  y ← Py.int (Py.strip y);
  Some (x, y).

(** The chain of tests on the key (lines 89-127). *)
Definition assign (st : locals) (key value : string) : result locals :=
  if String.eqb key "width" then
    match Py.int value with
    | Some n =>
        Ok (Locals (Some n) (height st) (entry st) (exit_coord st)
              (output_file st) (algorithm st))
    | None => Raise (InvalidDimensionsError "Width must be an integer")
    end
  else if String.eqb key "height" then
    match Py.int value with
    | Some n =>
        Ok (Locals (width st) (Some n) (entry st) (exit_coord st)
              (output_file st) (algorithm st))
    | None => Raise (InvalidDimensionsError "Height must be an integer")
    end
  else if String.eqb key "entry" then
    match coordinates value with
    | Some p =>
        Ok (Locals (width st) (height st) (Some p) (exit_coord st)
              (output_file st) (algorithm st))
    | None => Raise (InvalidCoordinatesError "Entry must be in format: x,y")
    end
  else if String.eqb key "exit" then
    match coordinates value with
    | Some p =>
        Ok (Locals (width st) (height st) (entry st) (Some p)
              (output_file st) (algorithm st))
    | None => Raise (InvalidCoordinatesError "Exit must be in format: x,y")
    end
  else if String.eqb key "output_file" then
    Ok (Locals (width st) (height st) (entry st) (exit_coord st)
          (Some value) (algorithm st))
  else if String.eqb key "algorithm" then
    Ok (Locals (width st) (height st) (entry st) (exit_coord st)
          (output_file st) value)
  else Ok st.

(** A line the loop passes over (line 81): empty, or a comment. *)
Definition skipped (line : string) : bool :=
  Py.is_empty line || Py.startswith "#" line.

(** The body of the loop over the lines (lines 78-127). *)
Definition body (st : locals) (line : string) : result locals :=
  let line := Py.strip line in
  if skipped line then Ok st
  else
    kv ← parse_line line;
    assign st kv.1 kv.2.

(** The loop of lines 77-127 over the text of the opened file. *)
Definition scan (text : string) : result locals :=
  for_each body (Py.readlines text) initial.

Definition max_dimension : Z := 1000.

Definition out_of_bounds (p : Z * Z) (w h : Z) : bool :=
  (fst p <? 0) || (fst p >=? w) || (snd p <? 0) || (snd p >=? h).

Definition bounds (w h : Z) : string :=
  "(0-" +:+ Py.str (w - 1) +:+ ", 0-" +:+ Py.str (h - 1) +:+ ")".

Definition pair_eqb (p q : Z * Z) : bool :=
  (fst p =? fst q) && (snd p =? snd q).

(** The checks after the loop and the returned dictionary
    (lines 132-181). *)
Definition validate (st : locals) : result config :=
  match width st with
  | None => Raise (InvalidDimensionsError "Width not found in config file")
  | Some w =>
  match height st with
  | None => Raise (InvalidDimensionsError "Height not found in config file")
  | Some h =>
  match entry st with
  | None => Raise (InvalidCoordinatesError "Entry not found in config file")
  | Some en =>
  match exit_coord st with
  | None => Raise (InvalidCoordinatesError "Exit not found in config file")
  | Some ex =>
  match output_file st with
  | None =>
      Raise (InvalidDimensionsError "Output file not found in config file")
  | Some out =>
      if w <=? 0 then
        Raise (InvalidDimensionsError
                 ("Width must be positive, got " +:+ Py.str w))
      else if h <=? 0 then
        Raise (InvalidDimensionsError
                 ("Height must be positive, got" +:+ Py.str h))
      else if w >? max_dimension then
        Raise (InvalidDimensionsError
                 ("Width too large (max " +:+ Py.str max_dimension
                  +:+ "), got " +:+ Py.str w))
      else if h >? max_dimension then
        Raise (InvalidDimensionsError
                 ("Height too large (max " +:+ Py.str max_dimension
                  +:+ "), got " +:+ Py.str h))
      else if out_of_bounds en w h then
        Raise (InvalidCoordinatesError
                 ("Entry " +:+ Py.str_pair en +:+ " is out of bounds "
                  +:+ bounds w h))
      else if out_of_bounds ex w h then
        Raise (InvalidCoordinatesError
                 ("Exit " +:+ Py.str_pair ex +:+ " is out of bounds "
                  +:+ bounds w h))
      else if pair_eqb en ex then
        Raise (InvalidCoordinatesError "Entry and exit cannot be the same")
      else
        Ok {| cfg_width := w; cfg_height := h; cfg_entry := en;
              cfg_exit := ex; cfg_output_file := out;
              cfg_algorithm := algorithm st |}
  end end end end end.

(** [parse] (lines 53-181). *)
Definition parse (fs : filesystem) (filename : string) : result config :=
  match fs filename with
  | None =>
      Raise (ConfigError ("Config file '" +:+ filename +:+ "' not found"))
  | Some text => st ← scan text; validate st
  end.

End ConfigParsing.

(** ** [src/config_parser.py]: class [ConfigParser] *)

Module ConfigParser.

(** The attributes of a loader (lines 7-9).  [config] is the dictionary the
    object keeps between calls; [parse] updates it in place and returns
    it. *)
Record loader : Type := Loader {
  filepath : string;
  config : gmap string string;
}.

(** [__init__] (lines 7-9). *)
Definition __init__ (path : string) : loader :=
  {| filepath := path; config := ∅ |}.

Definition skipped (line : string) : bool :=
  Py.is_empty line || Py.startswith "#" line.

(** The loop of lines 14-24 on the dictionary [cfg]: the dictionary as the
    loop leaves it, and the exception that stopped it, if any. *)
Fixpoint loop (lines : list string) (cfg : gmap string string)
  : gmap string string * option exn :=
  match lines with
  | [] => (cfg, None)
  | line :: rest =>
      let line := Py.strip line in
      if skipped line then loop rest cfg
      else if negb (Py.contains "=" line) then
        (cfg, Some (ValueError ("Invalid line: " +:+ line)))
      else
        match unpack2 (Py.split1 "=" line) with
        | Some (key, value) =>
            loop rest (<[Py.strip key := Py.strip value]> cfg)
        | None => (cfg, Some (ValueError "not enough values to unpack"))
        end
  end.

(** [parse] (lines 11-29): the loader after the call, and the returned
    dictionary or the exception.  The dictionary returned is the loader's own
    [config]: an exception leaves in it what the lines before had stored. *)
Definition parse (fs : filesystem) (self : loader)
  : loader * result (gmap string string) :=
  match fs (filepath self) with
  | None =>
      (self,
       Raise (FileNotFoundError
                ("Config file not found: " +:+ filepath self)))
  | Some text =>
      let '(cfg, stopped) := loop (Py.readlines text) (config self) in
      (Loader (filepath self) cfg,
       match stopped with
       | None => Ok cfg
       | Some e => Raise e
       end)
  end.

(** What a getter does: it returns a value, or raises one of the exceptions
    of [exn], or raises the built-in [KeyError], whose argument is kept. *)
Inductive outcome (A : Type) : Type :=
| Returns (a : A)
| Raises (e : exn)
| RaisesKeyError (arg : string).
Arguments Returns {A} a.
Arguments Raises {A} e.
Arguments RaisesKeyError {A} arg.

(** [get_int] (lines 31-39): a missing key is reported with a [KeyError] of
    its own, a value that is no integer with a [ValueError]. *)
Definition get_int (self : loader) (key : string) : outcome Z :=
  match config self !! key with
  | None => RaisesKeyError ("Missing key: " +:+ key)
  | Some value =>
      match Py.int value with
      | Some n => Returns n
      | None =>
          Raises (ValueError
                    ("Invalid integer for " +:+ key +:+ ": " +:+ value))
      end
  end.

(** [value in ('true', '1', 'yes')] and the like. *)
Definition one_of (value : string) (choices : list string) : bool :=
  existsb (String.eqb value) choices.

(** [get_bool] (lines 41-50): the lookup is outside any [try], so a missing
    key raises the [KeyError] of the dictionary, with the key. *)
Definition get_bool (self : loader) (key : string) : outcome bool :=
  match config self !! key with
  | None => RaisesKeyError key
  | Some original =>
      let value := Py.lower original in
      if one_of value ["true"; "1"; "yes"] then Returns true
      else if one_of value ["false"; "0"; "no"] then Returns false
      else
        Raises (ValueError
                  ("Invalid boolean for " +:+ key +:+ ": " +:+ original))
  end.

(** [get_coords] (lines 52-59).  The handler catches every exception of the
    [try], that of a missing key too; but its message reads
    [self.config[key]] again, so for a missing key the handler itself raises
    the [KeyError] of the dictionary. *)
Definition get_coords (self : loader) (key : string) : outcome (Z * Z) :=
  let attempt : option (Z * Z) :=
    value ← config self !! key;
    '(x, y) ← unpack2 (Py.split "," value);
    x ← Py.int (Py.strip x);
    y ← Py.int (Py.strip y);
    Some (x, y) in
  match attempt with
  | Some p => Returns p
  | None =>
      match config self !! key with
      | Some value =>
          Raises (ValueError
                    ("Invalid coordinates for " +:+ key +:+ ": " +:+ value))
      | None => RaisesKeyError key
      end
  end.

(** [get_str] (lines 61-62). *)
Definition get_str (self : loader) (key default : string) : string :=
  match config self !! key with
  | Some value => value
  | None => default
  end.

End ConfigParser.

(** ** [src/exception.py]: the script (lines 184-196)

    What the script prints, line by line, for the file system it runs in; an
    exception that is no [MazeError] is not caught and ends the script. *)
Definition is_maze_error (e : exn) : bool :=
  match e with
  | ConfigError _ | InvalidDimensionsError _ | InvalidCoordinatesError _ =>
      true
  | ValueError _ | FileNotFoundError _ => false
  end.

Definition main (fs : filesystem) : result (list string) :=
  match ConfigParsing.parse fs "config.txt" with
  | Ok config =>
      Ok ["Configuration loaded successfully!";
          "Width: " +:+ Py.str (ConfigParsing.cfg_width config);
          "Height: " +:+ Py.str (ConfigParsing.cfg_height config);
          "Entry: " +:+ Py.str_pair (ConfigParsing.cfg_entry config);
          "Exit: " +:+ Py.str_pair (ConfigParsing.cfg_exit config);
          "Output file: " +:+ ConfigParsing.cfg_output_file config;
          "Algorithm: " +:+ ConfigParsing.cfg_algorithm config]
  | Raise e =>
      if is_maze_error e then Ok ["Error: " +:+ message e] else Raise e
  end.

(** ** Vocabulary of the specification *)

(** The data lines of a text: its lines, trimmed, without the blank lines and
    the comment lines. *)
Definition data_lines (text : string) : list string :=
  filter (λ l, negb (Py.is_empty l || Py.startswith "#" l))
         (Py.strip <$> Py.readlines text).

(** The value a list of (key, value) pairs gives to a key: that of the last
    pair with this key. *)
Fixpoint last_value (key : string) (kvs : list (string * string))
  : option string :=
  match kvs with
  | [] => None
  | (k, v) :: rest =>
      match last_value key rest with
      | Some v' => Some v'
      | None => if String.eqb k key then Some v else None
      end
  end.

(** A value fits its key: an integer for [width] and [height], a pair of
    integers for [entry] and [exit]; nothing is asked of the other keys. *)
Definition well_typed (kv : string * string) : Prop :=
  (kv.1 = "width" ∨ kv.1 = "height" → is_Some (Py.int kv.2))
  ∧ (kv.1 = "entry" ∨ kv.1 = "exit" →
     is_Some (ConfigParsing.coordinates kv.2)).

(** A well-formed text with the pairs [kvs]: every data line has a separator
    and tokenizes to the pair at its place in [kvs], and every value fits its
    key. *)
Definition well_formed (text : string) (kvs : list (string * string)) : Prop :=
  Forall2 (λ l kv, ConfigParsing.parse_line l = Ok kv) (data_lines text) kvs
  ∧ Forall well_typed kvs.

(** The local variables of [ConfigParsing.parse] a list of pairs stands for,
    starting from [st]. *)
Definition assigned (kvs : list (string * string)) (st : ConfigParsing.locals)
  : ConfigParsing.locals :=
  {| ConfigParsing.width :=
       match last_value "width" kvs with
       | Some v => Py.int v
       | None => ConfigParsing.width st
       end;
     ConfigParsing.height :=
       match last_value "height" kvs with
       | Some v => Py.int v
       | None => ConfigParsing.height st
       end;
     ConfigParsing.entry :=
       match last_value "entry" kvs with
       | Some v => ConfigParsing.coordinates v
       | None => ConfigParsing.entry st
       end;
     ConfigParsing.exit_coord :=
       match last_value "exit" kvs with
       | Some v => ConfigParsing.coordinates v
       | None => ConfigParsing.exit_coord st
       end;
     ConfigParsing.output_file :=
       match last_value "output_file" kvs with
       | Some v => Some v
       | None => ConfigParsing.output_file st
       end;
     ConfigParsing.algorithm :=
       default (ConfigParsing.algorithm st) (last_value "algorithm" kvs) |}.

(** The required fields, in the order they are checked. *)
Inductive field : Type := Width | Height | Entry | Exit | OutputFile.

Definition required : list field := [Width; Height; Entry; Exit; OutputFile].

Definition key_of (f : field) : string :=
  match f with
  | Width => "width"
  | Height => "height"
  | Entry => "entry"
  | Exit => "exit"
  | OutputFile => "output_file"
  end.

(** How a presence error names a field. *)
Definition label (f : field) : string :=
  match f with
  | Width => "Width"
  | Height => "Height"
  | Entry => "Entry"
  | Exit => "Exit"
  | OutputFile => "Output file"
  end.

Definition presence_message (f : field) : string :=
  label f +:+ " not found in config file".

(** The presence error of a field: a dimension error for [width] and
    [height], a coordinate error for [entry] and [exit]; the code raises the
    one of [output_file] as a dimension error. *)
Definition presence_error (f : field) : exn :=
  match f with
  | Width | Height | OutputFile => InvalidDimensionsError (presence_message f)
  | Entry | Exit => InvalidCoordinatesError (presence_message f)
  end.

(** No data line of the text has this key. *)
Definition never_set (text key : string) : Prop :=
  ∀ l v, l ∈ data_lines text → ConfigParsing.parse_line l ≠ Ok (key, v).

(** The first required field no pair sets. *)
Definition first_unset (kvs : list (string * string)) : option field :=
  find (λ f, bool_decide (last_value (key_of f) kvs = None)) required.

(** [s] is [k], then its first [c], then [v]. *)
Definition splits_at_first (c : ascii) (s k v : string) : Prop :=
  s = k +:+ String c v ∧ Py.contains c k = false.

(** [p] is [v] cut at its first [c]: what comes before it, or the whole of
    [v] when [c] does not occur. *)
Definition truncated_at_first (c : ascii) (v p : string) : Prop :=
  (∃ r, splits_at_first c v p r) ∨ (Py.contains c v = false ∧ p = v).

(** What [ConfigParser.parse] stores for a data line: the two sides of its
    first [=], trimmed and otherwise as they stand. *)
Definition stored (l : string) (kv : string * string) : Prop :=
  ∃ k v, splits_at_first "=" l k v ∧ kv = (Py.strip k, Py.strip v).

(** A dictionary after the pairs have been stored in order. *)
Definition inserted (kvs : list (string * string)) (cfg : gmap string string)
  : gmap string string :=
  foldl (λ m kv, <[kv.1 := kv.2]> m) cfg kvs.

(** The exceptions raised while the lines are read. *)
Definition scan_errors : list exn :=
  [ConfigError "Invalid line format: expected '=' or ':'";
   InvalidDimensionsError "Width must be an integer";
   InvalidDimensionsError "Height must be an integer";
   InvalidCoordinatesError "Entry must be in format: x,y";
   InvalidCoordinatesError "Exit must be in format: x,y"].

(** A pair inside the grid of [w] columns and [h] rows. *)
Definition in_grid (p : Z * Z) (w h : Z) : Prop :=
  0 ≤ p.1 < w ∧ 0 ≤ p.2 < h.

(** A pair with a negative component, or a first component that is not
    below [w], or a second one that is not below [h]. *)
Definition outside (p : Z * Z) (w h : Z) : Prop :=
  p.1 < 0 ∨ w ≤ p.1 ∨ p.2 < 0 ∨ h ≤ p.2.

(** One string occurs inside another. *)
Fixpoint occurs_in (needle s : string) : bool :=
  String.prefix needle s ||
  match s with
  | EmptyString => false
  | String _ s' => occurs_in needle s'
  end.

(** A text from its lines, each ended by a line feed; a file system with one
    text at every path. *)
Definition text_of (lines : list string) : string :=
  fold_right (λ l t, l +:+ String Py.newline t) "" lines.

Definition one_file (text : string) : filesystem := λ _, Some text.

(** A string of white space only. *)
Definition all_space (s : string) : Prop :=
  Forall (λ c, Py.is_space c = true) (list_ascii_of_string s).

(** What the loop of [ConfigParsing.parse] does on a data line, and on the
    pair the line tokenizes to. *)
Definition on_data_line (st : ConfigParsing.locals) (l : string)
  : result ConfigParsing.locals :=
  kv ← ConfigParsing.parse_line l; ConfigParsing.assign st kv.1 kv.2.

Definition on_pair (st : ConfigParsing.locals) (kv : string * string)
  : result ConfigParsing.locals :=
  ConfigParsing.assign st kv.1 kv.2.

(** ** Example files *)

(** The file of the first scenario of the specification, and its pairs. *)
Definition scenario : string :=
  text_of ["width = 10"; "height = 10"; "entry = 0,0"; "exit = 9,9";
           "output_file = out.txt"].

Definition scenario_pairs : list (string * string) :=
  [("width", "10"); ("height", "10"); ("entry", "0,0"); ("exit", "9,9");
   ("output_file", "out.txt")].

(** Files for the checks: a grid of 1000 by 1, one that is too wide, one whose
    entry is outside, one whose entry and exit are the same, one without an
    output file, and one without a width whose entry and exit are the same. *)
Definition widest : string :=
  text_of ["width = 1000"; "height = 1"; "entry = 0,0"; "exit = 999,0";
           "output_file = out.txt"; "algorithm = prim"].

Definition too_wide : string :=
  text_of ["width = 1001"; "height = 0"; "entry = 0,0"; "exit = 9,9";
           "output_file = out.txt"].

Definition entry_outside : string :=
  text_of ["width = 10"; "height = 10"; "entry = 10,5"; "exit = 9,9";
           "output_file = out.txt"].

Definition same_cell : string :=
  text_of ["width = 10"; "height = 10"; "entry = 3,4"; "exit = 3,4";
           "output_file = out.txt"].

Definition no_output_file : string :=
  text_of ["width = 10"; "height = 10"; "entry = 0,0"; "exit = 9,9"].

Definition same_cell_no_width : string :=
  text_of ["height = 10"; "entry = 3,4"; "exit = 3,4";
           "output_file = out.txt"].

Definition empty_output_file : string :=
  text_of ["width = 10"; "height = 10"; "entry = 0,0"; "exit = 9,9";
           "output_file = # none"].

(** ** Vocabulary of the further properties *)

(** The keys [ConfigParsing.parse] knows. *)
Definition known_keys : list string :=
  ["width"; "height"; "entry"; "exit"; "output_file"; "algorithm"].

(** A string with white space at neither end. *)
Definition trimmed (s : string) : Prop :=
  Py.startswith_space s = false ∧ Py.endswith_space s = false.

(** A line [ConfigParsing.parse] passes over: blank, a comment, or a data line
    whose key it does not know. *)
Definition ignorable (l : string) : Prop :=
  ConfigParsing.skipped (Py.strip l) = true
  ∨ ∃ k v, ConfigParsing.parse_line (Py.strip l) = Ok (k, v)
           ∧ k ∉ known_keys.

(** Why a data line stops [ConfigParsing.parse]: it has no separator, or its
    key is [width], [height], [entry] or [exit] and its value does not fit. *)
Inductive fails : string → exn → Prop :=
| fails_format l :
    Py.contains "=" l = false → Py.contains ":" l = false →
    fails l (ConfigError "Invalid line format: expected '=' or ':'")
| fails_width l v :
    ConfigParsing.parse_line l = Ok ("width", v) → Py.int v = None →
    fails l (InvalidDimensionsError "Width must be an integer")
| fails_height l v :
    ConfigParsing.parse_line l = Ok ("height", v) → Py.int v = None →
    fails l (InvalidDimensionsError "Height must be an integer")
| fails_entry l v :
    ConfigParsing.parse_line l = Ok ("entry", v) →
    ConfigParsing.coordinates v = None →
    fails l (InvalidCoordinatesError "Entry must be in format: x,y")
| fails_exit l v :
    ConfigParsing.parse_line l = Ok ("exit", v) →
    ConfigParsing.coordinates v = None →
    fails l (InvalidCoordinatesError "Exit must be in format: x,y").

(** An entry [ConfigParser.parse] can have stored: a trimmed key without
    [=], and a trimmed value. *)
Definition clean_entry (k v : string) : Prop :=
  trimmed k ∧ Py.contains "=" k = false ∧ trimmed v.

(** More example files. *)
Definition with_extras : string :=
  text_of ["# maze"; "width = 10"; "colour = red"; "height = 10";
           "entry = 0,0"; "exit = 9,9"; "output_file = out.txt"].

Definition twice_width : string :=
  text_of ["width = 3"; "exit = 9,9"; "entry = 0,0"; "height = 10";
           "output_file = out.txt"; "width = 10"].

Definition bad_then_good : string :=
  text_of ["height = 10"; "width = ten"; "width = 10"].

(** A file for [ConfigParser], the pairs it stores for it, and a file that
    stops it at its second data line. *)
Definition settings : string :=
  text_of ["# maze"; "Width = 10 # columns"; "entry = 3, 4"; "solve = Yes";
           "Width = 12"].

Definition settings_pairs : list (string * string) :=
  [("Width", "10 # columns"); ("entry", "3, 4"); ("solve", "Yes");
   ("Width", "12")].

Definition settings_cut_short : string :=
  text_of ["Width = 10 # columns"; "entry : 0,0"; "solve = Yes"].

(** ** Facts about the built-ins *)

Section strings.

Lemma append_cons (a : ascii) (s t : string) :
  String a s +:+ t = String a (s +:+ t).
Proof. reflexivity. Qed.

Lemma append_empty_l (s : string) : "" +:+ s = s.
Proof. reflexivity. Qed.

Lemma append_empty_r (s : string) : s +:+ "" = s.
Proof.
  induction s as [|a s IH]; [done |]. by rewrite append_cons, IH.
Qed.

Lemma append_assoc (s t u : string) : (s +:+ t) +:+ u = s +:+ (t +:+ u).
Proof.
  induction s as [|a s IH]; [done |]. by rewrite !append_cons, IH.
Qed.

Lemma contains_append (c : ascii) (k v : string) :
  Py.contains c (k +:+ String c v) = true.
Proof.
  induction k as [|a k IH]; rewrite ?append_cons, ?append_empty_l; simpl.
  - by rewrite Ascii.eqb_refl.
  - by destruct (Ascii.eqb a c).
Qed.

(** A string that contains [c] splits around its first [c]. *)
Lemma contains_split (c : ascii) (s : string) :
  Py.contains c s = true →
  ∃ k v, s = k +:+ String c v ∧ Py.contains c k = false.
Proof.
  induction s as [|a s IH]; simpl; [done |].
  destruct (Ascii.eqb_spec a c) as [->|Hne]; intros H.
  - by exists "", s.
  - destruct (IH H) as (k & v & -> & Hk).
    exists (String a k), v. split; [done |]. simpl.
    by destruct (Ascii.eqb_spec a c).
Qed.

Lemma split1_first (c : ascii) (k v : string) :
  Py.contains c k = false →
  Py.split1 c (k +:+ String c v) = [k; v].
Proof.
  induction k as [|a k IH]; rewrite ?append_cons, ?append_empty_l; simpl.
  - by rewrite Ascii.eqb_refl.
  - destruct (Ascii.eqb a c); [done |]. intros H. by rewrite (IH H).
Qed.

Lemma first_piece_first (c : ascii) (p r : string) :
  Py.contains c p = false →
  Py.first_piece c (p +:+ String c r) = p.
Proof.
  unfold Py.first_piece.
  induction p as [|a p IH]; rewrite ?append_cons, ?append_empty_l; simpl.
  - by rewrite Ascii.eqb_refl.
  - destruct (Ascii.eqb a c); [done |]. intros H. specialize (IH H).
    destruct (Py.split c (p +:+ String c r)); simpl in *; by subst.
Qed.

Lemma first_piece_whole (c : ascii) (s : string) :
  Py.contains c s = false → Py.first_piece c s = s.
Proof.
  unfold Py.first_piece. induction s as [|a s IH]; simpl; [done |].
  destruct (Ascii.eqb a c); [done |]. intros H. specialize (IH H).
  destruct (Py.split c s); simpl in *; by subst.
Qed.

(** [split1] on a string that contains the separator always gives the two
    pieces the unpacking needs. *)
Lemma split1_contains (c : ascii) (s : string) :
  Py.contains c s = true → ∃ k v, Py.split1 c s = [k; v].
Proof.
  intros H. destruct (contains_split c s H) as (k & v & -> & Hk).
  exists k, v. by apply split1_first.
Qed.

Lemma lstrip_spec (s : string) :
  ∃ l, s = l +:+ Py.lstrip s ∧ all_space l
       ∧ Py.startswith_space (Py.lstrip s) = false.
Proof.
  induction s as [|a s (l & Hs & Hl & Hf)]; simpl.
  - exists "". repeat split; constructor.
  - destruct (Py.is_space a) eqn:Ha.
    + exists (String a l). split; [by rewrite append_cons, <- Hs |].
      split; [by constructor | done].
    + exists "". split; [done |]. split; [constructor | simpl; done].
Qed.

Lemma rstrip_spec (s : string) :
  ∃ r, s = Py.rstrip s +:+ r ∧ all_space r
       ∧ Py.endswith_space (Py.rstrip s) = false.
Proof.
  induction s as [|a s (r & Hs & Hr & Hf)]; simpl.
  - exists "". repeat split; constructor.
  - destruct (Py.rstrip s) as [|b t] eqn:Ht.
    + rewrite append_empty_l in Hs. subst r.
      destruct (Py.is_space a) eqn:Ha.
      * exists (String a s). split; [done |]. split; [by constructor | done].
      * exists s. split; [done |]. split; [done | simpl; done].
    + exists r. split; [by rewrite append_cons, <- Hs |]. split; [done |].
      simpl in *. done.
Qed.

Lemma rstrip_startswith_space (s : string) :
  Py.startswith_space s = false →
  Py.startswith_space (Py.rstrip s) = false.
Proof.
  destruct s as [|a s]; simpl; [done |]. intros Ha.
  destruct (Py.rstrip s); [by rewrite Ha | done].
Qed.

(** The result of [strip] is the string without a run of white space at
    each end, and has white space at neither end. *)
Lemma strip_spec (s : string) :
  ∃ l r, s = l +:+ Py.strip s +:+ r ∧ all_space l ∧ all_space r
         ∧ Py.startswith_space (Py.strip s) = false
         ∧ Py.endswith_space (Py.strip s) = false.
Proof.
  unfold Py.strip.
  destruct (lstrip_spec s) as (l & Hs & Hl & Hf).
  destruct (rstrip_spec (Py.lstrip s)) as (r & Hs' & Hr & Hf').
  exists l, r. rewrite <- Hs'.
  split_and!; auto using rstrip_startswith_space.
Qed.

(** [lower] changes no length and no character that is not a capital. *)
Lemma lower_length (s : string) :
  String.length (Py.lower s) = String.length s.
Proof. induction s as [|a s IH]; simpl; [done | by rewrite IH]. Qed.

End strings.

(** ** The loop of [ConfigParsing.parse] and the pairs of the text *)

Section scanning.
Import ConfigParsing.

Lemma for_each_cons {A S : Type} (f : S → A → result S) (x : A)
    (xs : list A) (s : S) :
  for_each f (x :: xs) s = f s x ≫= for_each f xs.
Proof. reflexivity. Qed.

Lemma body_unfold (st : locals) (l : string) :
  body st l =
  if skipped (Py.strip l) then Ok st else on_data_line st (Py.strip l).
Proof. reflexivity. Qed.

Lemma for_each_data_lines (ls : list string) (st : locals) :
  for_each body ls st =
  for_each on_data_line
    (filter (λ l, negb (Py.is_empty l || Py.startswith "#" l))
            (Py.strip <$> ls)) st.
Proof.
  revert st. induction ls as [|l ls IH]; intros st; [done |].
  rewrite fmap_cons, filter_cons, for_each_cons, body_unfold.
  unfold skipped.
  destruct (Py.is_empty (Py.strip l) || Py.startswith "#" (Py.strip l));
    simpl; [apply IH |].
  destruct (on_data_line st (Py.strip l)); simpl; [apply IH | done].
Qed.

Lemma scan_data_lines (text : string) :
  scan text = for_each on_data_line (data_lines text) initial.
Proof. apply for_each_data_lines. Qed.

Lemma on_data_line_ok (st : locals) (l : string) (kv : string * string) :
  parse_line l = Ok kv → on_data_line st l = on_pair st kv.
Proof. unfold on_data_line. by intros ->. Qed.

Lemma for_each_tokens (ls : list string) (kvs : list (string * string))
    (st : locals) :
  Forall2 (λ l kv, parse_line l = Ok kv) ls kvs →
  for_each on_data_line ls st = for_each on_pair kvs st.
Proof.
  intros H. revert st.
  induction H as [|l kv ls kvs Hl _ IH]; intros st; [done |].
  rewrite !for_each_cons, (on_data_line_ok st l kv Hl).
  destruct (on_pair st kv); simpl; [apply IH | done].
Qed.

(** An assignment succeeds exactly when the value fits the key. *)
Lemma assign_well_typed (st : locals) (k v : string) :
  well_typed (k, v) → ∃ st', assign st k v = Ok st'.
Proof.
  intros [Hint Hco]. simpl in *. unfold assign.
  repeat match goal with
         | |- context [String.eqb k ?key] =>
             destruct (String.eqb_spec k key) as [->|?]
         end;
    try (destruct Hint as [? ->]; [by auto | by eauto]);
    try (destruct Hco as [? ->]; [by auto | by eauto]);
    eauto.
Qed.

(** What an assignment does to the local variables, read off the pairs. *)
Lemma assign_assigned (st st' : locals) (k v : string)
    (rest : list (string * string)) :
  assign st k v = Ok st' →
  well_typed (k, v) ∧ assigned rest st' = assigned ((k, v) :: rest) st.
Proof.
  unfold assign, well_typed, assigned. simpl.
  repeat match goal with
         | |- context [String.eqb k ?key] =>
             destruct (String.eqb_spec k key) as [->|?]
         end; simpl;
    repeat match goal with
           | |- context [Py.int v] => destruct (Py.int v) eqn:?
           | |- context [coordinates v] => destruct (coordinates v) eqn:?
           end;
    intros [= <-]; simpl.
    all: (split; [split; intros [?|?]; by (congruence || eauto) |]).
    all: f_equal; repeat (case_match; simplify_eq); done.
Qed.

Lemma for_each_assigned (kvs : list (string * string)) (st : locals) :
  Forall well_typed kvs → for_each on_pair kvs st = Ok (assigned kvs st).
Proof.
  intros H. revert st.
  induction H as [|[k v] kvs Hkv _ IH]; intros st.
  - by destruct st.
  - rewrite for_each_cons. change (on_pair st (k, v)) with (assign st k v).
    destruct (assign_well_typed st k v Hkv) as [st' Hst'].
    rewrite Hst'. simpl. rewrite IH.
    by destruct (assign_assigned st st' k v kvs Hst') as [_ ->].
Qed.

Lemma for_each_assigned_inv (ls : list string) (st st' : locals) :
  for_each on_data_line ls st = Ok st' →
  ∃ kvs, Forall2 (λ l kv, parse_line l = Ok kv) ls kvs
         ∧ Forall well_typed kvs ∧ st' = assigned kvs st.
Proof.
  revert st. induction ls as [|l ls IH]; intros st.
  - intros [= <-]. exists []. split_and!; [constructor.. |]. by destruct st.
  - rewrite for_each_cons.
    change (on_data_line st l)
      with (parse_line l ≫= λ kv, assign st kv.1 kv.2).
    destruct (parse_line l) as [[k v]|] eqn:Hl; simpl; [| done].
    destruct (assign st k v) as [st1|] eqn:Hst1; simpl; [| done].
    intros (kvs & Htok & Hwt & ->)%IH.
    destruct (assign_assigned st st1 k v kvs Hst1) as [Hkv Heq].
    exists ((k, v) :: kvs). split_and!; by try constructor.
Qed.

(** The loop over a well-formed text ends with the local variables its
    pairs stand for, and a loop that ends was over a well-formed text. *)
Lemma scan_well_formed (text : string) (kvs : list (string * string)) :
  well_formed text kvs → scan text = Ok (assigned kvs initial).
Proof.
  intros [Htok Hwt]. rewrite scan_data_lines.
  rewrite (for_each_tokens _ _ _ Htok). by apply for_each_assigned.
Qed.

Lemma scan_ok_inv (text : string) (st : locals) :
  scan text = Ok st →
  ∃ kvs, well_formed text kvs ∧ st = assigned kvs initial.
Proof.
  rewrite scan_data_lines. intros (kvs & ? & ? & ->)%for_each_assigned_inv.
  by exists kvs.
Qed.

(** The exceptions the loop can raise. *)
Lemma parse_line_raise (l : string) (e : exn) :
  parse_line l = Raise e →
  e = ConfigError "Invalid line format: expected '=' or ':'".
Proof.
  unfold parse_line.
  destruct (Py.contains "=" l) eqn:Heq.
  { destruct (split1_contains _ _ Heq) as (k & v & ->). done. }
  destruct (Py.contains ":" l) eqn:Hco.
  { destruct (split1_contains _ _ Hco) as (k & v & ->). done. }
  simpl. congruence.
Qed.

Lemma assign_raise (st : locals) (k v : string) (e : exn) :
  assign st k v = Raise e → e ∈ scan_errors.
Proof.
  unfold assign, scan_errors.
  repeat case_match; intros [= <-]; set_solver.
Qed.

Lemma scan_raise (text : string) (e : exn) :
  scan text = Raise e → e ∈ scan_errors.
Proof.
  rewrite scan_data_lines. generalize initial.
  induction (data_lines text) as [|l ls IH]; intros st; [done |].
  rewrite for_each_cons.
  change (on_data_line st l)
    with (parse_line l ≫= λ kv, assign st kv.1 kv.2).
  destruct (parse_line l) as [[k v]|e'] eqn:Hl; simpl.
  - destruct (assign st k v) as [st'|e'] eqn:Hst; simpl; [apply IH |].
    intros [= <-]. by eapply assign_raise.
  - intros [= <-]. apply parse_line_raise in Hl as ->.
    unfold scan_errors. set_solver.
Qed.

End scanning.

(** ** The checks of [ConfigParsing.parse] *)

Section validation.
Import ConfigParsing.

Lemma parse_scanned (fs : filesystem) (filename text : string) (st : locals) :
  fs filename = Some text → scan text = Ok st →
  parse fs filename = validate st.
Proof. unfold parse. by intros -> ->. Qed.

Lemma out_of_bounds_outside (p : Z * Z) (w h : Z) :
  out_of_bounds p w h = true ↔ outside p w h.
Proof.
  unfold out_of_bounds, outside.
  rewrite !orb_true_iff, !Z.ltb_lt, !Z.geb_le. tauto.
Qed.

Lemma out_of_bounds_in_grid (p : Z * Z) (w h : Z) :
  out_of_bounds p w h = false ↔ in_grid p w h.
Proof.
  unfold out_of_bounds, in_grid.
  rewrite !orb_false_iff, !Z.ltb_ge, <- !not_true_iff_false, !Z.geb_le. lia.
Qed.

Lemma outside_not_in_grid (p : Z * Z) (w h : Z) :
  outside p w h ↔ ¬ in_grid p w h.
Proof. unfold outside, in_grid. lia. Qed.

Lemma pair_eqb_eq (p q : Z * Z) : pair_eqb p q = true ↔ p = q.
Proof.
  destruct p as [a b], q as [c d]. unfold pair_eqb. simpl.
  rewrite andb_true_iff, !Z.eqb_eq.
  split; [by intros [-> ->] | by intros [= -> ->]].
Qed.

Lemma pair_eqb_neq (p q : Z * Z) : pair_eqb p q = false ↔ p ≠ q.
Proof. rewrite <- not_true_iff_false, pair_eqb_eq. done. Qed.

(** [validate] on local variables that are all set and pass every check. *)
Lemma validate_ok (st : locals) (w h : Z) (en ex : Z * Z) (out : string) :
  width st = Some w → height st = Some h → entry st = Some en →
  exit_coord st = Some ex → output_file st = Some out →
  1 ≤ w ≤ 1000 → 1 ≤ h ≤ 1000 →
  in_grid en w h → in_grid ex w h → en ≠ ex →
  validate st =
  Ok {| cfg_width := w; cfg_height := h; cfg_entry := en; cfg_exit := ex;
        cfg_output_file := out; cfg_algorithm := algorithm st |}.
Proof.
  intros Hw Hh Hen Hex Hout ?? Hgen Hgex Hne. unfold validate, max_dimension.
  rewrite Hw, Hh, Hen, Hex, Hout.
  apply out_of_bounds_in_grid in Hgen, Hgex. apply pair_eqb_neq in Hne.
  rewrite Hgen, Hgex, Hne.
  destruct (Z.leb_spec w 0); [lia |]. destruct (Z.leb_spec h 0); [lia |].
  destruct (Z.gtb_spec w 1000); [lia |]. destruct (Z.gtb_spec h 1000); [lia |].
  done.
Qed.

End validation.

(** ** Properties of [ConfigParsing.parse] *)

Section parse_properties.
Import ConfigParsing.

(** C1.  A well-formed file whose last [width] and [height] lines give
    [W] and [H] between 1 and 1000, whose last [entry] and [exit] lines give
    two different pairs inside the [W] by [H] grid, and that has an
    [output_file] line, is parsed with success: the returned fields are
    exactly these values, and [algorithm] is the value of the last
    [algorithm] line as it stands, or ["recursive_backtracking"] when the
    file has no such line. *)
Theorem parse_well_formed (fs : filesystem) (filename text : string)
    (kvs : list (string * string)) (vw vh ve vx out : string)
    (W H : Z) (en ex : Z * Z) :
  fs filename = Some text →
  well_formed text kvs →
  last_value "width" kvs = Some vw → Py.int vw = Some W →
  last_value "height" kvs = Some vh → Py.int vh = Some H →
  last_value "entry" kvs = Some ve → coordinates ve = Some en →
  last_value "exit" kvs = Some vx → coordinates vx = Some ex →
  last_value "output_file" kvs = Some out →
  1 ≤ W ≤ 1000 → 1 ≤ H ≤ 1000 →
  in_grid en W H → in_grid ex W H → en ≠ ex →
  parse fs filename =
  Ok {| cfg_width := W; cfg_height := H; cfg_entry := en; cfg_exit := ex;
        cfg_output_file := out;
        cfg_algorithm :=
          default "recursive_backtracking" (last_value "algorithm" kvs) |}.
Proof.
  intros Hfile Hwf Hw HW Hh HH Hen Hen' Hex Hex' Hout ?????.
  rewrite (parse_scanned fs filename text _ Hfile (scan_well_formed _ _ Hwf)).
  apply validate_ok; simpl; try done.
  - by rewrite Hw.
  - by rewrite Hh.
  - by rewrite Hen.
  - by rewrite Hex.
  - by rewrite Hout.
Qed.

(** In well-typed pairs the value a key gets fits the key. *)
Lemma last_value_int (kvs : list (string * string)) :
  Forall well_typed kvs →
  ∀ k v, k = "width" ∨ k = "height" →
         last_value k kvs = Some v → is_Some (Py.int v).
Proof.
  intros Hwt k v Hk. induction Hwt as [|[k' v'] kvs [Hkv _] _ IH]; [done |].
  simpl. destruct (last_value k kvs); [exact IH |].
  destruct (String.eqb_spec k' k) as [->|]; [| done].
  intros [= <-]. by apply Hkv.
Qed.

Lemma last_value_coordinates (kvs : list (string * string)) :
  Forall well_typed kvs →
  ∀ k v, k = "entry" ∨ k = "exit" →
         last_value k kvs = Some v → is_Some (coordinates v).
Proof.
  intros Hwt k v Hk. induction Hwt as [|[k' v'] kvs [_ Hkv] _ IH]; [done |].
  simpl. destruct (last_value k kvs); [exact IH |].
  destruct (String.eqb_spec k' k) as [->|]; [| done].
  intros [= <-]. by apply Hkv.
Qed.

Lemma first_unset_assigned (kvs : list (string * string)) (f : field) :
  Forall well_typed kvs → first_unset kvs = Some f →
  validate (assigned kvs initial) = Raise (presence_error f).
Proof.
  intros Hwt. unfold first_unset, required. simpl.
  pose proof (last_value_int kvs Hwt) as Hint.
  pose proof (last_value_coordinates kvs Hwt) as Hco.
  unfold validate, assigned. simpl.
  destruct (last_value "width" kvs) as [vw|] eqn:Hw;
    [| case_bool_decide; naive_solver].
  destruct (Hint "width" vw) as [w ->]; [by auto.. |].
  destruct (last_value "height" kvs) as [vh|] eqn:Hh;
    [| repeat case_bool_decide; naive_solver].
  destruct (Hint "height" vh) as [h ->]; [by auto.. |].
  destruct (last_value "entry" kvs) as [ve|] eqn:He;
    [| repeat case_bool_decide; naive_solver].
  destruct (Hco "entry" ve) as [en ->]; [by auto.. |].
  destruct (last_value "exit" kvs) as [vx|] eqn:Hx;
    [| repeat case_bool_decide; naive_solver].
  destruct (Hco "exit" vx) as [ex ->]; [by auto.. |].
  destruct (last_value "output_file" kvs) as [vo|] eqn:Ho;
    [| repeat case_bool_decide; naive_solver].
  repeat case_bool_decide; naive_solver.
Qed.

(** C2, as amended.  For a well-formed file (every data line tokenizes and
    every value fits its key) in which a required field is never set,
    [parse] raises the presence error of the first unset field in the order
    width, height, entry, exit, output_file, whatever the other unset
    fields; a file without data lines raises the one of width. *)
Theorem presence_checks (fs : filesystem) (filename text : string) :
  fs filename = Some text →
  (∀ kvs f, well_formed text kvs → first_unset kvs = Some f →
            parse fs filename = Raise (presence_error f))
  ∧ (data_lines text = [] →
     parse fs filename =
     Raise (InvalidDimensionsError "Width not found in config file")).
Proof.
  intros Hfile. split.
  - intros kvs f Hwf Hf.
    rewrite (parse_scanned fs filename text _ Hfile
               (scan_well_formed _ _ Hwf)).
    destruct Hwf as [_ Hwt]. by apply first_unset_assigned.
  - intros Hnone.
    assert (Hwf : well_formed text []).
    { split; [rewrite Hnone |]; constructor. }
    by rewrite (parse_scanned fs filename text _ Hfile
                  (scan_well_formed _ _ Hwf)).
Qed.

(** C3.  Once the five required fields are set, [parse] tests the width for
    being positive, then the height, then the width against 1000, then the
    height, and raises a dimension error with the offending value at the
    first test that fails.  With the other fields valid, every width and
    height from 1 to 1000, the two ends included, is accepted; 0 and 1001
    are refused with a dimension error. *)
Theorem dimension_checks (fs : filesystem) (filename text : string)
    (st : locals) (w h : Z) (en ex : Z * Z) (out : string) :
  fs filename = Some text → scan text = Ok st →
  width st = Some w → height st = Some h → entry st = Some en →
  exit_coord st = Some ex → output_file st = Some out →
  (w ≤ 0 →
   parse fs filename =
   Raise (InvalidDimensionsError
            ("Width must be positive, got " +:+ Py.str w)))
  ∧ (0 < w → h ≤ 0 →
     parse fs filename =
     Raise (InvalidDimensionsError
              ("Height must be positive, got" +:+ Py.str h)))
  ∧ (0 < w → 0 < h → 1000 < w →
     parse fs filename =
     Raise (InvalidDimensionsError
              ("Width too large (max 1000), got " +:+ Py.str w)))
  ∧ (0 < w → 0 < h → w ≤ 1000 → 1000 < h →
     parse fs filename =
     Raise (InvalidDimensionsError
              ("Height too large (max 1000), got " +:+ Py.str h)))
  ∧ (w ∈ [0; 1001] ∨ h ∈ [0; 1001] →
     ∃ msg, parse fs filename = Raise (InvalidDimensionsError msg))
  ∧ (1 ≤ w ≤ 1000 → 1 ≤ h ≤ 1000 →
     in_grid en w h → in_grid ex w h → en ≠ ex →
     parse fs filename =
     Ok {| cfg_width := w; cfg_height := h; cfg_entry := en;
           cfg_exit := ex; cfg_output_file := out;
           cfg_algorithm := algorithm st |}).
Proof.
  intros Hfile Hscan Hw Hh Hen Hex Hout.
  rewrite (parse_scanned fs filename text st Hfile Hscan).
  split_and!; try (intros; by apply validate_ok).
  all: unfold validate, max_dimension; rewrite Hw, Hh, Hen, Hex, Hout.
  all: intros.
  all: destruct (Z.leb_spec w 0); try lia; try done.
  all: destruct (Z.leb_spec h 0); try lia; try done.
  all: destruct (Z.gtb_spec w 1000); try lia; try done.
  all: destruct (Z.gtb_spec h 1000); try lia; try done.
  all: try by eexists.
  exfalso.
  match goal with
  | H : _ ∨ _ |- _ => destruct H as [H|H];
      repeat (apply elem_of_cons in H as [->|H]); try lia;
      by apply elem_of_nil in H
  end.
Qed.

(** C4.  Once the dimension checks have passed, [parse] tests the entry and
    then the exit: a pair with a negative component, or a first component
    that is not below the width, or a second one that is not below the
    height, raises a coordinate error whose message gives the pair and the
    box from 0 to width-1 and from 0 to height-1; a pair inside the grid
    passes the test. *)
Theorem coordinate_checks (fs : filesystem) (filename text : string)
    (st : locals) (w h : Z) (en ex : Z * Z) (out : string) :
  fs filename = Some text → scan text = Ok st →
  width st = Some w → height st = Some h → entry st = Some en →
  exit_coord st = Some ex → output_file st = Some out →
  1 ≤ w ≤ 1000 → 1 ≤ h ≤ 1000 →
  (outside en w h →
   parse fs filename =
   Raise (InvalidCoordinatesError
            ("Entry " +:+ Py.str_pair en +:+ " is out of bounds (0-"
             +:+ Py.str (w - 1) +:+ ", 0-" +:+ Py.str (h - 1) +:+ ")")))
  ∧ (in_grid en w h → outside ex w h →
     parse fs filename =
     Raise (InvalidCoordinatesError
              ("Exit " +:+ Py.str_pair ex +:+ " is out of bounds (0-"
               +:+ Py.str (w - 1) +:+ ", 0-" +:+ Py.str (h - 1) +:+ ")")))
  ∧ (in_grid en w h → in_grid ex w h →
     parse fs filename =
     if decide (en = ex)
     then Raise (InvalidCoordinatesError "Entry and exit cannot be the same")
     else Ok {| cfg_width := w; cfg_height := h; cfg_entry := en;
                cfg_exit := ex; cfg_output_file := out;
                cfg_algorithm := algorithm st |}).
Proof.
  intros Hfile Hscan Hw Hh Hen Hex Hout ??.
  rewrite (parse_scanned fs filename text st Hfile Hscan).
  unfold validate, max_dimension; rewrite Hw, Hh, Hen, Hex, Hout.
  destruct (Z.leb_spec w 0); [lia |]. destruct (Z.leb_spec h 0); [lia |].
  destruct (Z.gtb_spec w 1000); [lia |]. destruct (Z.gtb_spec h 1000); [lia |].
  unfold bounds. split_and!.
  - by intros ->%out_of_bounds_outside.
  - by intros ->%out_of_bounds_in_grid ->%out_of_bounds_outside.
  - intros ->%out_of_bounds_in_grid ->%out_of_bounds_in_grid.
    case_decide as Heq.
    + apply pair_eqb_eq in Heq. by rewrite Heq.
    + apply pair_eqb_neq in Heq. by rewrite Heq.
Qed.

(** C6, as amended.  A file that is read to its end and whose entry and exit
    are the same pair is never accepted.  The error is the coordinate error
    "Entry and exit cannot be the same" when the five required fields are
    set, the width and the height are between 1 and 1000 and the pair is
    inside the grid: the test comes last, after the presence, dimension and
    bounds checks. *)
Theorem same_entry_exit (fs : filesystem) (filename text : string)
    (st : locals) (p : Z * Z) :
  fs filename = Some text → scan text = Ok st →
  entry st = Some p → exit_coord st = Some p →
  (∃ e, parse fs filename = Raise e)
  ∧ (∀ w h out,
       width st = Some w → height st = Some h →
       output_file st = Some out →
       1 ≤ w ≤ 1000 → 1 ≤ h ≤ 1000 → in_grid p w h →
       parse fs filename =
       Raise (InvalidCoordinatesError "Entry and exit cannot be the same")).
Proof.
  intros Hfile Hscan Hen Hex.
  rewrite (parse_scanned fs filename text st Hfile Hscan).
  unfold validate. rewrite Hen, Hex.
  assert (Hsame : pair_eqb p p = true) by by apply pair_eqb_eq.
  rewrite Hsame. split.
  - repeat case_match; by eexists.
  - intros w h out -> -> -> ?? ->%out_of_bounds_in_grid.
    unfold max_dimension.
    destruct (Z.leb_spec w 0); [lia |]. destruct (Z.leb_spec h 0); [lia |].
    destruct (Z.gtb_spec w 1000); [lia |].
    destruct (Z.gtb_spec h 1000); [lia |]. done.
Qed.

(** C7, as amended.  The [output_file] of a returned record is the value of
    the last [output_file] line of the file, cut at its first [#] and
    trimmed; the file has such a line, and the value may be empty. *)
Theorem output_file_of_record (fs : filesystem) (filename : string)
    (c : config) :
  parse fs filename = Ok c →
  ∃ text kvs, fs filename = Some text ∧ well_formed text kvs
              ∧ last_value "output_file" kvs = Some (cfg_output_file c).
Proof.
  unfold parse. destruct (fs filename) as [text|]; [| done].
  destruct (scan text) as [st|] eqn:Hscan; simpl; [| done].
  apply scan_ok_inv in Hscan as (kvs & Hwf & ->).
  intros Hv. exists text, kvs. split_and!; [done.. |].
  revert Hv. unfold validate, assigned. simpl.
  destruct (last_value "output_file" kvs); simpl;
    repeat case_match; try done; by intros [= <-].
Qed.

(** C9.  When [output_file] is the first required field that is not set,
    its presence error is raised as an [InvalidDimensionsError]; and no
    other error of [parse] carries this message. *)
Theorem output_file_presence_kind (fs : filesystem) (filename : string) :
  (∀ text st w h en ex,
     fs filename = Some text → scan text = Ok st →
     width st = Some w → height st = Some h → entry st = Some en →
     exit_coord st = Some ex → output_file st = None →
     parse fs filename =
     Raise (InvalidDimensionsError "Output file not found in config file"))
  ∧ (∀ e, parse fs filename = Raise e →
          message e = "Output file not found in config file" →
          e = InvalidDimensionsError "Output file not found in config file").
Proof.
  split.
  - intros text st w h en ex Hfile Hscan Hw Hh Hen Hex Hout.
    rewrite (parse_scanned fs filename text st Hfile Hscan).
    unfold validate. by rewrite Hw, Hh, Hen, Hex, Hout.
  - intros e. unfold parse.
    destruct (fs filename) as [text|]; [| by intros [= <-]].
    destruct (scan text) as [st|e'] eqn:Hscan; simpl.
    + unfold validate. repeat case_match; intros [= <-]; done.
    + intros [= <-]. apply scan_raise in Hscan. unfold scan_errors in Hscan.
      repeat (apply elem_of_cons in Hscan as [->|Hscan]); try done.
      by apply elem_of_nil in Hscan.
Qed.

End parse_properties.

Lemma parse_well_formed_witness :
  ConfigParsing.parse (one_file scenario) "config.txt" =
  Ok {| ConfigParsing.cfg_width := 10; ConfigParsing.cfg_height := 10;
        ConfigParsing.cfg_entry := (0, 0); ConfigParsing.cfg_exit := (9, 9);
        ConfigParsing.cfg_output_file := "out.txt";
        ConfigParsing.cfg_algorithm := "recursive_backtracking" |}.
Proof.
  apply (parse_well_formed (one_file scenario) "config.txt" scenario
           scenario_pairs "10" "10" "0,0" "9,9" "out.txt" 10 10 (0, 0) (9, 9));
    try reflexivity.
  - split.
    + repeat constructor.
    + repeat constructor; simpl; intros [?|?]; try discriminate;
        vm_compute; eauto.
  - lia.
  - lia.
  - unfold in_grid; simpl; lia.
  - unfold in_grid; simpl; lia.
  - discriminate.
Defined.

Lemma presence_checks_witness :
  ConfigParsing.parse
    (one_file (text_of ["# a maze"; "width = 10"; "exit = 9,9"])) "config.txt"
  = Raise (InvalidDimensionsError "Height not found in config file")
  ∧ ConfigParsing.parse (one_file (text_of ["# a maze"; ""; "  # none"]))
      "config.txt"
    = Raise (InvalidDimensionsError "Width not found in config file").
Proof.
  split.
  - refine (proj1 (presence_checks
                     (one_file
                        (text_of ["# a maze"; "width = 10"; "exit = 9,9"]))
                     "config.txt" _ eq_refl)
              [("width", "10"); ("exit", "9,9")] Height _ eq_refl).
    split.
    + repeat constructor.
    + repeat constructor; simpl; intros [?|?]; try discriminate;
        vm_compute; eauto.
  - exact (proj2 (presence_checks
                    (one_file (text_of ["# a maze"; ""; "  # none"]))
                    "config.txt" _ eq_refl) eq_refl).
Defined.

(** C2, as stated, fails: in a file whose only line is [height = ten] no line
    sets the width, and the error is the one of the malformed height, raised
    while the lines are read, not a presence error. *)
Lemma presence_checks_counterexample :
  ¬ (∀ (fs : filesystem) (filename text : string) (f : field),
       fs filename = Some text → never_set text (key_of f) →
       ∃ f', ConfigParsing.parse fs filename = Raise (presence_error f')).
Proof.
  intros Hclaim.
  destruct (Hclaim (one_file "height = ten") "config.txt" "height = ten" Width
              eq_refl) as [f' Hf'].
  - intros l v Hl. vm_compute in Hl.
    apply list_elem_of_singleton in Hl as ->. vm_compute. discriminate.
  - vm_compute in Hf'. destruct f'; discriminate.
Qed.

Lemma dimension_checks_witness :
  ConfigParsing.parse (one_file widest) "config.txt" =
  Ok {| ConfigParsing.cfg_width := 1000; ConfigParsing.cfg_height := 1;
        ConfigParsing.cfg_entry := (0, 0); ConfigParsing.cfg_exit := (999, 0);
        ConfigParsing.cfg_output_file := "out.txt";
        ConfigParsing.cfg_algorithm := "prim" |}
  ∧ ConfigParsing.parse (one_file too_wide) "config.txt" =
    Raise (InvalidDimensionsError "Height must be positive, got0").
Proof.
  split.
  - refine (proj2 (proj2 (proj2 (proj2 (proj2
             (dimension_checks (one_file widest) "config.txt" widest
                (ConfigParsing.Locals (Some 1000) (Some 1) (Some (0, 0))
                   (Some (999, 0)) (Some "out.txt") "prim")
                1000 1 (0, 0) (999, 0) "out.txt"
                eq_refl eq_refl eq_refl eq_refl eq_refl eq_refl eq_refl)))))
             _ _ _ _ _); unfold in_grid; simpl; (lia || discriminate).
  - refine (proj1 (proj2
             (dimension_checks (one_file too_wide) "config.txt" too_wide
                (ConfigParsing.Locals (Some 1001) (Some 0) (Some (0, 0))
                   (Some (9, 9)) (Some "out.txt") "recursive_backtracking")
                1001 0 (0, 0) (9, 9) "out.txt"
                eq_refl eq_refl eq_refl eq_refl eq_refl eq_refl eq_refl))
             _ _); lia.
Defined.

Lemma coordinate_checks_witness :
  ConfigParsing.parse (one_file entry_outside) "config.txt" =
  Raise (InvalidCoordinatesError "Entry (10, 5) is out of bounds (0-9, 0-9)").
Proof.
  refine (proj1
            (coordinate_checks (one_file entry_outside) "config.txt"
               entry_outside
               (ConfigParsing.Locals (Some 10) (Some 10) (Some (10, 5))
                  (Some (9, 9)) (Some "out.txt") "recursive_backtracking")
               10 10 (10, 5) (9, 9) "out.txt"
               eq_refl eq_refl eq_refl eq_refl eq_refl eq_refl eq_refl _ _) _).
  - lia.
  - lia.
  - unfold outside; simpl; lia.
Defined.

Lemma same_entry_exit_witness :
  ConfigParsing.parse (one_file same_cell) "config.txt" =
  Raise (InvalidCoordinatesError "Entry and exit cannot be the same").
Proof.
  refine (proj2
            (same_entry_exit (one_file same_cell) "config.txt" same_cell
               (ConfigParsing.Locals (Some 10) (Some 10) (Some (3, 4))
                  (Some (3, 4)) (Some "out.txt") "recursive_backtracking")
               (3, 4) eq_refl eq_refl eq_refl eq_refl)
            10 10 "out.txt" eq_refl eq_refl eq_refl _ _ _);
    unfold in_grid; simpl; lia.
Defined.

(** C6, as stated, fails: with the same entry and exit but no width, the
    error is the presence error of the width. *)
Lemma same_entry_exit_counterexample :
  ¬ (∀ (fs : filesystem) (filename text : string)
       (st : ConfigParsing.locals) (p : Z * Z),
       fs filename = Some text → ConfigParsing.scan text = Ok st →
       ConfigParsing.entry st = Some p →
       ConfigParsing.exit_coord st = Some p →
       ConfigParsing.parse fs filename =
       Raise (InvalidCoordinatesError "Entry and exit cannot be the same")).
Proof.
  intros Hclaim.
  specialize (Hclaim (one_file same_cell_no_width) "config.txt"
                same_cell_no_width
                (ConfigParsing.Locals None (Some 10) (Some (3, 4))
                   (Some (3, 4)) (Some "out.txt") "recursive_backtracking")
                (3, 4) eq_refl eq_refl eq_refl eq_refl).
  vm_compute in Hclaim. discriminate.
Qed.

Lemma output_file_of_record_witness :
  ∃ text kvs,
    one_file empty_output_file "config.txt" = Some text
    ∧ well_formed text kvs ∧ last_value "output_file" kvs = Some "".
Proof.
  exact (output_file_of_record (one_file empty_output_file) "config.txt"
           {| ConfigParsing.cfg_width := 10; ConfigParsing.cfg_height := 10;
              ConfigParsing.cfg_entry := (0, 0);
              ConfigParsing.cfg_exit := (9, 9);
              ConfigParsing.cfg_output_file := "";
              ConfigParsing.cfg_algorithm := "recursive_backtracking" |}
           eq_refl).
Defined.

(** C7, as stated, fails: a file whose [output_file] line has nothing after
    the separator but a comment is accepted, with the empty string as
    output file. *)
Lemma output_file_of_record_counterexample :
  ¬ (∀ (fs : filesystem) (filename : string) (c : ConfigParsing.config),
       ConfigParsing.parse fs filename = Ok c →
       ConfigParsing.cfg_output_file c ≠ "").
Proof.
  intros Hclaim.
  by apply (Hclaim (one_file empty_output_file) "config.txt"
              {| ConfigParsing.cfg_width := 10; ConfigParsing.cfg_height := 10;
                 ConfigParsing.cfg_entry := (0, 0);
                 ConfigParsing.cfg_exit := (9, 9);
                 ConfigParsing.cfg_output_file := "";
                 ConfigParsing.cfg_algorithm := "recursive_backtracking" |}
              eq_refl).
Qed.

Lemma output_file_presence_kind_witness :
  ConfigParsing.parse (one_file no_output_file) "config.txt" =
  Raise (InvalidDimensionsError "Output file not found in config file").
Proof.
  exact (proj1 (output_file_presence_kind (one_file no_output_file)
                  "config.txt")
           no_output_file
           (ConfigParsing.Locals (Some 10) (Some 10) (Some (0, 0))
              (Some (9, 9)) None "recursive_backtracking")
           10 10 (0, 0) (9, 9)
           eq_refl eq_refl eq_refl eq_refl eq_refl eq_refl eq_refl).
Defined.

(** ** Properties of [ConfigParsing.parse_line] *)

Section parse_line_properties.
Import ConfigParsing.

Lemma first_piece_truncated (c : ascii) (v p : string) :
  truncated_at_first c v p → Py.first_piece c v = p.
Proof.
  intros [[r [-> Hp]]|[Hv ->]].
  - by apply first_piece_first.
  - by apply first_piece_whole.
Qed.

Lemma parse_line_split (c : ascii) (line k v p : string) :
  splits_at_first c line k v → truncated_at_first "#" v p →
  Py.strip (Py.first_piece "#" v) = Py.strip p
  ∧ Py.split1 c line = [k; v] ∧ Py.contains c line = true.
Proof.
  intros [-> Hk] Hp. rewrite (first_piece_truncated _ _ _ Hp).
  split_and!; [done | by apply split1_first | apply contains_append].
Qed.

(** C5, as amended.  [parse_line] cuts a line at its first [=] when it has
    one, else at its first [:] when it has one; the key is the left part,
    trimmed and put in lower case; the value is the right part, cut at its
    first [#] and then trimmed.  A line with neither separator raises the
    format error, whose message is fixed and does not quote the line. *)
Theorem parse_line_spec (line : string) :
  (∀ k v p,
     splits_at_first "=" line k v → truncated_at_first "#" v p →
     parse_line line = Ok (Py.lower (Py.strip k), Py.strip p))
  ∧ (∀ k v p,
       Py.contains "=" line = false →
       splits_at_first ":" line k v → truncated_at_first "#" v p →
       parse_line line = Ok (Py.lower (Py.strip k), Py.strip p))
  ∧ (Py.contains "=" line = false → Py.contains ":" line = false →
     parse_line line =
     Raise (ConfigError "Invalid line format: expected '=' or ':'")).
Proof.
  unfold parse_line. split_and!.
  - intros k v p Hkv Hp.
    destruct (parse_line_split _ _ _ _ _ Hkv Hp) as (Hs & -> & ->).
    simpl. by rewrite Hs.
  - intros k v p -> Hkv Hp.
    destruct (parse_line_split _ _ _ _ _ Hkv Hp) as (Hs & -> & ->).
    simpl. by rewrite Hs.
  - by intros -> ->.
Qed.

End parse_line_properties.

Lemma parse_line_spec_witness :
  ConfigParsing.parse_line "Output_File = maze.txt # where to write"
  = Ok ("output_file", "maze.txt")
  ∧ ConfigParsing.parse_line "entry : 0,0" = Ok ("entry", "0,0")
  ∧ ConfigParsing.parse_line "bogus_line_no_separator"
    = Raise (ConfigError "Invalid line format: expected '=' or ':'").
Proof.
  split_and!.
  - apply (proj1 (parse_line_spec "Output_File = maze.txt # where to write")
             "Output_File " " maze.txt # where to write" " maze.txt ").
    + by split.
    + left. exists " where to write". by split.
  - apply (proj1 (proj2 (parse_line_spec "entry : 0,0"))
             "entry " " 0,0" " 0,0").
    + done.
    + by split.
    + right. by split.
  - by apply (proj2 (proj2 (parse_line_spec "bogus_line_no_separator"))).
Defined.

(** C5, as stated, fails where it says the format error names the line: the
    message raised for [bogus_line_no_separator] does not contain it. *)
Lemma parse_line_spec_counterexample :
  ¬ (∀ line : string,
       ConfigParsing.skipped line = false →
       Py.contains "=" line = false → Py.contains ":" line = false →
       ∃ msg, ConfigParsing.parse_line line = Raise (ConfigError msg)
              ∧ occurs_in line msg = true).
Proof.
  intros Hclaim.
  destruct (Hclaim "bogus_line_no_separator" eq_refl eq_refl eq_refl)
    as (msg & [= <-] & Hin).
  vm_compute in Hin. discriminate.
Qed.

(** ** Properties of [ConfigParser.parse] *)

Section config_parser.
Import ConfigParser.

Lemma lookup_inserted (kvs : list (string * string))
    (cfg : gmap string string) (key : string) :
  inserted kvs cfg !! key =
  match last_value key kvs with
  | Some v => Some v
  | None => cfg !! key
  end.
Proof.
  revert cfg. induction kvs as [|[k v] kvs IH]; intros cfg; [done |].
  simpl. unfold inserted in *. simpl. rewrite IH.
  destruct (last_value key kvs); [done |].
  destruct (String.eqb_spec k key) as [->|Hne].
  - by rewrite lookup_insert_eq.
  - by rewrite lookup_insert_ne.
Qed.

(** Storing the same pairs a second time changes nothing. *)
Lemma inserted_twice (kvs : list (string * string))
    (cfg : gmap string string) :
  inserted kvs (inserted kvs cfg) = inserted kvs cfg.
Proof.
  apply map_eq. intros key. rewrite !lookup_inserted.
  by destruct (last_value key kvs).
Qed.

(** The loop stores pairs that depend on the lines alone, and stops on an
    exception that depends on the lines alone. *)
Lemma loop_inserted (lines : list string) :
  ∃ kvs stopped, ∀ cfg, loop lines cfg = (inserted kvs cfg, stopped).
Proof.
  induction lines as [|l lines (kvs & stopped & IH)].
  - by exists [], None.
  - simpl. destruct (skipped (Py.strip l)); [by exists kvs, stopped |].
    destruct (Py.contains "=" (Py.strip l)); simpl; [| by eexists [], _].
    destruct (unpack2 _) as [[k v]|]; [| by eexists [], _].
    exists ((Py.strip k, Py.strip v) :: kvs), stopped. intros cfg.
    by rewrite IH.
Qed.

Lemma loop_stored (lines : list string) (kvs : list (string * string))
    (cfg : gmap string string) :
  Forall2 stored
    (filter (λ l, negb (Py.is_empty l || Py.startswith "#" l))
            (Py.strip <$> lines)) kvs →
  loop lines cfg = (inserted kvs cfg, None).
Proof.
  revert kvs cfg. induction lines as [|l lines IH]; intros kvs cfg.
  - by intros ->%Forall2_nil_inv_l.
  - rewrite fmap_cons, filter_cons. simpl. unfold skipped.
    destruct (Py.is_empty (Py.strip l) || Py.startswith "#" (Py.strip l));
      simpl; [apply IH |].
    intros (kv & kvs' & (k & v & [Hl Hk] & ->) & Hrest & ->)%Forall2_cons_inv_l.
    rewrite Hl, contains_append, (split1_first _ _ _ Hk). simpl.
    by rewrite (IH _ _ Hrest).
Qed.

Lemma loop_first_offending (lines pre post : list string) (l : string)
    (cfg : gmap string string) :
  filter (λ l, negb (Py.is_empty l || Py.startswith "#" l))
         (Py.strip <$> lines) = (pre ++ l :: post)%list →
  Forall (λ l', Py.contains "=" l' = true) pre →
  Py.contains "=" l = false →
  (loop lines cfg).2 = Some (ValueError ("Invalid line: " +:+ l)).
Proof.
  revert pre cfg. induction lines as [|l0 lines IH]; intros pre cfg.
  - intros Hnil. by destruct pre.
  - rewrite fmap_cons, filter_cons. simpl. unfold skipped.
    destruct (Py.is_empty (Py.strip l0) || Py.startswith "#" (Py.strip l0));
      simpl; [apply IH |].
    destruct pre as [|p pre]; simpl.
    + intros [= -> Hrest] _ ->. done.
    + intros [= -> Hrest] [Hp Hpre]%Forall_cons Hl. rewrite Hp. simpl.
      destruct (split1_contains _ _ Hp) as (k & v & ->). simpl.
      by apply (IH pre).
Qed.

Lemma first_offending (ls : list string) (l : string) :
  l ∈ ls → Py.contains "=" l = false →
  ∃ pre l' post,
    ls = (pre ++ l' :: post)%list
    ∧ Forall (λ x, Py.contains "=" x = true) pre
    ∧ Py.contains "=" l' = false.
Proof.
  induction ls as [|x ls IH]; [by intros ?%elem_of_nil |].
  intros Hin Hl. destruct (Py.contains "=" x) eqn:Hx.
  - apply elem_of_cons in Hin as [->|Hin]; [congruence |].
    destruct (IH Hin Hl) as (pre & l' & post & -> & Hpre & Hl').
    exists (x :: pre), l', post. split_and!; [done | by constructor | done].
  - exists [], x, ls. split_and!; [done | constructor | done].
Qed.

(** C10.  [ConfigParser.parse] takes [=] as the only separator.  The first
    data line without [=], with or without a [:], stops it with a
    [ValueError] whose message gives that line; so a file with any such
    line raises a [ValueError] that names one.  When every data line has
    an [=], each is stored as the pair of its two sides around the first
    [=], trimmed and otherwise unchanged: no lower case, no cut at [#]. *)
Theorem config_parser_parse_spec (fs : filesystem) (self : loader)
    (text : string) :
  fs (filepath self) = Some text →
  (∀ pre l post,
     data_lines text = (pre ++ l :: post)%list →
     Forall (λ l', Py.contains "=" l' = true) pre →
     Py.contains "=" l = false →
     (parse fs self).2 = Raise (ValueError ("Invalid line: " +:+ l)))
  ∧ (∀ l, l ∈ data_lines text → Py.contains "=" l = false →
          ∃ l', l' ∈ data_lines text ∧ Py.contains "=" l' = false
                ∧ (parse fs self).2
                  = Raise (ValueError ("Invalid line: " +:+ l')))
  ∧ (∀ kvs, Forall2 stored (data_lines text) kvs →
            parse fs self
            = (Loader (filepath self) (inserted kvs (config self)),
               Ok (inserted kvs (config self)))).
Proof.
  intros Hfile.
  assert (Hfirst : ∀ pre l post,
             data_lines text = (pre ++ l :: post)%list →
             Forall (λ l', Py.contains "=" l' = true) pre →
             Py.contains "=" l = false →
             (parse fs self).2 = Raise (ValueError ("Invalid line: " +:+ l))).
  { intros pre l post Hsplit Hpre Hl. unfold parse. rewrite Hfile.
    pose proof (loop_first_offending _ _ _ _ (config self) Hsplit Hpre Hl)
      as Hloop.
    destruct (loop (Py.readlines text) (config self)) as [cfg stopped].
    simpl in *. by rewrite Hloop. }
  split_and!; [done | |].
  - intros l Hin Hl.
    destruct (first_offending _ _ Hin Hl) as (pre & l' & post & Hs & Hp & Hl').
    exists l'. split_and!; [| done | by eapply Hfirst].
    rewrite Hs. set_solver.
  - intros kvs Hkvs. unfold parse. rewrite Hfile.
    by rewrite (loop_stored _ _ (config self) Hkvs).
Qed.

End config_parser.

Lemma config_parser_parse_spec_witness :
  (ConfigParser.parse
     (one_file (text_of ["# maze"; "Width = 10 # columns"; "entry : 0,0"]))
     (ConfigParser.__init__ "config.txt")).2
  = Raise (ValueError "Invalid line: entry : 0,0")
  ∧ ConfigParser.parse
      (one_file (text_of ["# maze"; "Width = 10 # columns"; " a=b = c "]))
      (ConfigParser.__init__ "config.txt")
    = (ConfigParser.Loader "config.txt"
         (<["a" := "b = c"]> (<["Width" := "10 # columns"]> ∅)),
       Ok (<["a" := "b = c"]> (<["Width" := "10 # columns"]> ∅))).
Proof.
  split.
  - refine (proj1
              (config_parser_parse_spec
                 (one_file
                    (text_of ["# maze"; "Width = 10 # columns"; "entry : 0,0"]))
                 (ConfigParser.__init__ "config.txt") _ eq_refl)
              ["Width = 10 # columns"] "entry : 0,0" [] eq_refl _ eq_refl).
    by repeat constructor.
  - refine (proj2 (proj2
              (config_parser_parse_spec
                 (one_file
                    (text_of ["# maze"; "Width = 10 # columns"; " a=b = c "]))
                 (ConfigParser.__init__ "config.txt") _ eq_refl))
              [("Width", "10 # columns"); ("a", "b = c")] _).
    repeat constructor.
    + by exists "Width ", " 10 # columns".
    + by exists "a", "b = c".
Defined.

(** ** Loads and the state of the loader *)

Section loads.

(** C8, as amended.  [ConfigParsing.parse] keeps no state: its result is
    fixed by the text of the file.  [ConfigParser.parse] updates the
    dictionary the loader keeps: on a new loader the result is fixed by the
    text of the file, and a second load of the same text on the same loader
    returns the same result and leaves the loader as it is. *)
Theorem load_depends_on_text :
  (∀ (fs1 fs2 : filesystem) (f1 f2 text : string),
     fs1 f1 = Some text → fs2 f2 = Some text →
     ConfigParsing.parse fs1 f1 = ConfigParsing.parse fs2 f2)
  ∧ (∀ (fs1 fs2 : filesystem) (p1 p2 text : string),
       fs1 p1 = Some text → fs2 p2 = Some text →
       (ConfigParser.parse fs1 (ConfigParser.__init__ p1)).2
       = (ConfigParser.parse fs2 (ConfigParser.__init__ p2)).2)
  ∧ (∀ (fs1 fs2 : filesystem) (self : ConfigParser.loader) (text : string),
       fs1 (ConfigParser.filepath self) = Some text →
       fs2 (ConfigParser.filepath self) = Some text →
       ConfigParser.parse fs2 (ConfigParser.parse fs1 self).1
       = ConfigParser.parse fs1 self).
Proof.
  split_and!.
  - intros fs1 fs2 f1 f2 text H1 H2. unfold ConfigParsing.parse.
    by rewrite H1, H2.
  - intros fs1 fs2 p1 p2 text H1 H2. unfold ConfigParser.parse. simpl.
    rewrite H1, H2.
    by destruct (ConfigParser.loop (Py.readlines text) ∅).
  - intros fs1 fs2 self text H1 H2. unfold ConfigParser.parse.
    rewrite H1.
    destruct (loop_inserted (Py.readlines text)) as (kvs & stopped & Hloop).
    rewrite Hloop. simpl. rewrite H2, Hloop.
    by rewrite inserted_twice.
Qed.

End loads.

Lemma load_depends_on_text_witness :
  ConfigParsing.parse (one_file scenario) "a.txt"
  = ConfigParsing.parse (λ f, if String.eqb f "b.txt" then Some scenario
                              else None) "b.txt"
  ∧ ConfigParser.parse (one_file "a = 1")
      (ConfigParser.parse (one_file "a = 1")
         (ConfigParser.Loader "config.txt" {["b" := "2"]})).1
    = ConfigParser.parse (one_file "a = 1")
        (ConfigParser.Loader "config.txt" {["b" := "2"]}).
Proof.
  split.
  - exact (proj1 load_depends_on_text (one_file scenario)
             (λ f, if String.eqb f "b.txt" then Some scenario else None)
             "a.txt" "b.txt" scenario eq_refl eq_refl).
  - exact (proj2 (proj2 load_depends_on_text) (one_file "a = 1")
             (one_file "a = 1")
             (ConfigParser.Loader "config.txt" {["b" := "2"]}) "a = 1"
             eq_refl eq_refl).
Defined.

(** C8, as stated, fails for [ConfigParser]: a loader that has read [a = 1]
    and then reads a file that only says [b = 2] returns a dictionary that
    still has the key [a], which a new loader does not return. *)
Lemma load_depends_on_text_counterexample :
  ¬ (∀ (fs1 fs2 : filesystem) (path : string),
       (ConfigParser.parse fs2
          (ConfigParser.parse fs1 (ConfigParser.__init__ path)).1).2
       = (ConfigParser.parse fs2 (ConfigParser.__init__ path)).2).
Proof.
  intros Hclaim.
  specialize (Hclaim (one_file "a = 1") (one_file "b = 2") "config.txt").
  assert (Hlookup :
            match (ConfigParser.parse (one_file "b = 2")
                     (ConfigParser.parse (one_file "a = 1")
                        (ConfigParser.__init__ "config.txt")).1).2 with
            | Ok cfg => cfg !! "a"
            | Raise _ => None
            end = Some "1") by by vm_compute.
  rewrite Hclaim in Hlookup. vm_compute in Hlookup. discriminate.
Qed.

(** ** Further properties of [ConfigParsing.parse] *)

Section parse_results.
Import ConfigParsing.

Lemma validate_ok_inv (st : locals) (c : config) :
  validate st = Ok c →
  width st = Some (cfg_width c) ∧ height st = Some (cfg_height c)
  ∧ entry st = Some (cfg_entry c) ∧ exit_coord st = Some (cfg_exit c)
  ∧ output_file st = Some (cfg_output_file c)
  ∧ algorithm st = cfg_algorithm c
  ∧ 1 ≤ cfg_width c ≤ 1000 ∧ 1 ≤ cfg_height c ≤ 1000
  ∧ in_grid (cfg_entry c) (cfg_width c) (cfg_height c)
  ∧ in_grid (cfg_exit c) (cfg_width c) (cfg_height c)
  ∧ cfg_entry c ≠ cfg_exit c.
Proof.
  unfold validate, max_dimension.
  destruct (width st) as [w|]; [| done].
  destruct (height st) as [h|]; [| done].
  destruct (entry st) as [en|]; [| done].
  destruct (exit_coord st) as [ex|]; [| done].
  destruct (output_file st) as [out|]; [| done].
  destruct (Z.leb_spec w 0); [done |]. destruct (Z.leb_spec h 0); [done |].
  destruct (Z.gtb_spec w 1000); [done |].
  destruct (Z.gtb_spec h 1000); [done |].
  destruct (out_of_bounds en w h) eqn:Hen; [done |].
  destruct (out_of_bounds ex w h) eqn:Hex; [done |].
  destruct (pair_eqb en ex) eqn:Hne; [done |].
  intros [= <-]. simpl.
  apply out_of_bounds_in_grid in Hen, Hex. apply pair_eqb_neq in Hne.
  split_and!; (done || lia).
Qed.

Lemma parse_ok_inv (fs : filesystem) (filename : string) (c : config) :
  parse fs filename = Ok c →
  ∃ text st, fs filename = Some text ∧ scan text = Ok st
             ∧ validate st = Ok c.
Proof.
  unfold parse. destruct (fs filename) as [text|]; [| done].
  destruct (scan text) as [st|] eqn:Hscan; simpl; [| done].
  intros Hv. by exists text, st.
Qed.

Lemma parse_ok_pairs (fs : filesystem) (filename : string) (c : config) :
  parse fs filename = Ok c →
  ∃ text kvs, fs filename = Some text ∧ well_formed text kvs
              ∧ validate (assigned kvs initial) = Ok c.
Proof.
  intros (text & st & Hfile & Hscan & Hv)%parse_ok_inv.
  apply scan_ok_inv in Hscan as (kvs & Hwf & ->). by exists text, kvs.
Qed.

(** X1.  A record returned by [parse] has its width and its height between 1
    and 1000, its entry and its exit inside the grid, and they differ. *)
Theorem parse_ok_ranges (fs : filesystem) (filename : string) (c : config) :
  parse fs filename = Ok c →
  1 ≤ cfg_width c ≤ 1000 ∧ 1 ≤ cfg_height c ≤ 1000
  ∧ in_grid (cfg_entry c) (cfg_width c) (cfg_height c)
  ∧ in_grid (cfg_exit c) (cfg_width c) (cfg_height c)
  ∧ cfg_entry c ≠ cfg_exit c.
Proof.
  intros (text & st & _ & _ & Hv)%parse_ok_inv.
  apply validate_ok_inv in Hv. tauto.
Qed.

(** X2.  Every field of a returned record comes from the file: the file is
    well-formed, width and height are the integers of its last [width] and
    [height] lines, entry and exit the pairs of its last [entry] and [exit]
    lines, the output file the value of its last [output_file] line, and the
    algorithm the value of its last [algorithm] line, or the default. *)
Theorem parse_ok_fields (fs : filesystem) (filename : string) (c : config) :
  parse fs filename = Ok c →
  ∃ text kvs vw vh ve vx,
    fs filename = Some text ∧ well_formed text kvs
    ∧ last_value "width" kvs = Some vw ∧ Py.int vw = Some (cfg_width c)
    ∧ last_value "height" kvs = Some vh ∧ Py.int vh = Some (cfg_height c)
    ∧ last_value "entry" kvs = Some ve
    ∧ coordinates ve = Some (cfg_entry c)
    ∧ last_value "exit" kvs = Some vx
    ∧ coordinates vx = Some (cfg_exit c)
    ∧ last_value "output_file" kvs = Some (cfg_output_file c)
    ∧ cfg_algorithm c
      = default "recursive_backtracking" (last_value "algorithm" kvs).
Proof.
  intros (text & kvs & Hfile & Hwf & Hv)%parse_ok_pairs.
  apply validate_ok_inv in Hv
    as (Hw & Hh & Hen & Hex & Hout & Halg & _). simpl in *.
  destruct (last_value "width" kvs) as [vw|] eqn:?; [| done].
  destruct (last_value "height" kvs) as [vh|] eqn:?; [| done].
  destruct (last_value "entry" kvs) as [ve|] eqn:?; [| done].
  destruct (last_value "exit" kvs) as [vx|] eqn:?; [| done].
  destruct (last_value "output_file" kvs) as [vo|] eqn:?; [| done].
  exists text, kvs, vw, vh, ve, vx. simplify_eq. by split_and!.
Qed.


(** X4.  [parse] raises the "not found" [ConfigError] with the path exactly
    when the file does not exist. *)
Theorem parse_not_found (fs : filesystem) (filename : string) :
  fs filename = None ↔
  parse fs filename =
  Raise (ConfigError ("Config file '" +:+ filename +:+ "' not found")).
Proof.
  unfold parse. split; [by intros -> |].
  destruct (fs filename) as [text|]; [| done].
  destruct (scan text) as [st|e'] eqn:Hscan; simpl.
  - unfold validate. repeat case_match; intros [= ?]; done.
  - intros [= ->]. apply scan_raise in Hscan. unfold scan_errors in Hscan.
    repeat (apply elem_of_cons in Hscan as [Heq|Hscan]); try done.
    by apply elem_of_nil in Hscan.
Qed.

End parse_results.

(** ** Lines that do not count, lines that stop the loop *)

Section lines.
Import ConfigParsing.

Lemma for_each_app {A S : Type} (f : S → A → result S) (xs ys : list A)
    (s : S) :
  for_each f (xs ++ ys)%list s = for_each f xs s ≫= for_each f ys.
Proof.
  revert s. induction xs as [|x xs IH]; intros s; [done |].
  simpl. destruct (f s x); simpl; [apply IH | done].
Qed.

Lemma assign_unknown (st : locals) (k v : string) :
  k ∉ known_keys → assign st k v = Ok st.
Proof.
  intros Hk. unfold assign.
  repeat match goal with
         | |- context [String.eqb k ?key] =>
             destruct (String.eqb_spec k key) as [->|?]
         end; try done; exfalso; apply Hk; unfold known_keys; set_solver.
Qed.

Lemma body_ignorable (st : locals) (l : string) :
  ignorable l → body st l = Ok st.
Proof.
  rewrite body_unfold. intros [-> | (k & v & Hl & Hk)]; [done |].
  destruct (skipped (Py.strip l)); [done |].
  rewrite (on_data_line_ok st _ _ Hl). by apply assign_unknown.
Qed.

(** X5.  Blank lines, comment lines and lines with an unknown key do not
    count: a file with such a line and the file without it give the same
    result, record or error. *)
Theorem ignorable_line (fs1 fs2 : filesystem) (f1 f2 text1 text2 : string)
    (pre post : list string) (l : string) :
  fs1 f1 = Some text1 → fs2 f2 = Some text2 →
  Py.readlines text1 = (pre ++ l :: post)%list →
  Py.readlines text2 = (pre ++ post)%list →
  ignorable l →
  parse fs1 f1 = parse fs2 f2.
Proof.
  intros H1 H2 Hl1 Hl2 Hl. unfold parse, scan.
  rewrite H1, H2, Hl1, Hl2, !for_each_app.
  destruct (for_each body pre initial) as [st|]; [| done].
  change (Ok st ≫= for_each body (l :: post))
    with (for_each body (l :: post) st).
  by rewrite for_each_cons, (body_ignorable st l Hl).
Qed.

(** X6.  The last line of a key wins, and nothing else of the file matters:
    two well-formed files whose pairs give the same last value to each of the
    six known keys give the same result. *)
Theorem last_line_wins (fs1 fs2 : filesystem) (f1 f2 text1 text2 : string)
    (kvs1 kvs2 : list (string * string)) :
  fs1 f1 = Some text1 → fs2 f2 = Some text2 →
  well_formed text1 kvs1 → well_formed text2 kvs2 →
  (∀ key, key ∈ known_keys → last_value key kvs1 = last_value key kvs2) →
  parse fs1 f1 = parse fs2 f2.
Proof.
  intros H1 H2 Hwf1 Hwf2 Hsame.
  rewrite (parse_scanned _ _ _ _ H1 (scan_well_formed _ _ Hwf1)).
  rewrite (parse_scanned _ _ _ _ H2 (scan_well_formed _ _ Hwf2)).
  f_equal. unfold assigned.
  rewrite !Hsame; [done | unfold known_keys; set_solver..].
Qed.

Lemma fails_on_data_line (l : string) (e : exn) (st : locals) :
  fails l e → on_data_line st l = Raise e.
Proof.
  intros [l' H1 H2 | l' v Hl Hv | l' v Hl Hv | l' v Hl Hv | l' v Hl Hv].
  - unfold on_data_line, parse_line. by rewrite H1, H2.
  - rewrite (on_data_line_ok st _ _ Hl). unfold on_pair, assign. simpl.
    by rewrite Hv.
  - rewrite (on_data_line_ok st _ _ Hl). unfold on_pair, assign. simpl.
    by rewrite Hv.
  - rewrite (on_data_line_ok st _ _ Hl). unfold on_pair, assign. simpl.
    by rewrite Hv.
  - rewrite (on_data_line_ok st _ _ Hl). unfold on_pair, assign. simpl.
    by rewrite Hv.
Qed.

(** X7.  The first data line that has no separator, or whose width, height,
    entry or exit does not fit, decides the error: [parse] raises its error
    whatever the lines after it say, and before any check of presence, even
    when a later line of the same key is right. *)
Theorem first_failing_line (fs : filesystem) (filename text : string)
    (pre post : list string) (l : string) (kvs : list (string * string))
    (e : exn) :
  fs filename = Some text →
  data_lines text = (pre ++ l :: post)%list →
  Forall2 (λ l kv, parse_line l = Ok kv) pre kvs →
  Forall well_typed kvs →
  fails l e →
  parse fs filename = Raise e.
Proof.
  intros Hfile Hlines Hpre Hwt Hl. unfold parse.
  rewrite Hfile, scan_data_lines, Hlines, for_each_app.
  rewrite (for_each_tokens _ _ _ Hpre), (for_each_assigned _ _ Hwt). simpl.
  by rewrite (fails_on_data_line l e _ Hl).
Qed.

End lines.

Lemma parse_ok_ranges_witness :
  1 ≤ 1000 ≤ 1000 ∧ 1 ≤ 1 ≤ 1000 ∧ in_grid (0, 0) 1000 1
  ∧ in_grid (999, 0) 1000 1 ∧ (0, 0) ≠ (999, 0).
Proof.
  exact (parse_ok_ranges (one_file widest) "config.txt"
           {| ConfigParsing.cfg_width := 1000; ConfigParsing.cfg_height := 1;
              ConfigParsing.cfg_entry := (0, 0);
              ConfigParsing.cfg_exit := (999, 0);
              ConfigParsing.cfg_output_file := "out.txt";
              ConfigParsing.cfg_algorithm := "prim" |} eq_refl).
Defined.

Lemma parse_ok_fields_witness :
  ∃ text kvs vw vh ve vx,
    one_file widest "config.txt" = Some text ∧ well_formed text kvs
    ∧ last_value "width" kvs = Some vw ∧ Py.int vw = Some 1000
    ∧ last_value "height" kvs = Some vh ∧ Py.int vh = Some 1
    ∧ last_value "entry" kvs = Some ve
    ∧ ConfigParsing.coordinates ve = Some (0, 0)
    ∧ last_value "exit" kvs = Some vx
    ∧ ConfigParsing.coordinates vx = Some (999, 0)
    ∧ last_value "output_file" kvs = Some "out.txt"
    ∧ "prim" = default "recursive_backtracking" (last_value "algorithm" kvs).
Proof.
  exact (parse_ok_fields (one_file widest) "config.txt"
           {| ConfigParsing.cfg_width := 1000; ConfigParsing.cfg_height := 1;
              ConfigParsing.cfg_entry := (0, 0);
              ConfigParsing.cfg_exit := (999, 0);
              ConfigParsing.cfg_output_file := "out.txt";
              ConfigParsing.cfg_algorithm := "prim" |} eq_refl).
Defined.


Lemma parse_not_found_witness :
  ConfigParsing.parse (λ _, None) "maze.cfg" =
  Raise (ConfigError "Config file 'maze.cfg' not found").
Proof.
  exact (proj1 (parse_not_found (λ _, None) "maze.cfg") eq_refl).
Defined.

Lemma ignorable_line_witness :
  ConfigParsing.parse (one_file with_extras) "a.txt"
  = ConfigParsing.parse
      (one_file (text_of ["# maze"; "width = 10"; "height = 10";
                          "entry = 0,0"; "exit = 9,9";
                          "output_file = out.txt"])) "b.txt".
Proof.
  apply (ignorable_line _ _ "a.txt" "b.txt" with_extras
           (text_of ["# maze"; "width = 10"; "height = 10"; "entry = 0,0";
                     "exit = 9,9"; "output_file = out.txt"])
           (Py.readlines (text_of ["# maze"; "width = 10"]))
           (Py.readlines (text_of ["height = 10"; "entry = 0,0"; "exit = 9,9";
                                   "output_file = out.txt"]))
           ("colour = red" +:+ String Py.newline ""));
    try reflexivity.
  right. exists "colour", "red". split; [reflexivity |].
  unfold known_keys. intros Hk.
  repeat (apply elem_of_cons in Hk as [Hk|Hk]; [discriminate |]).
  by apply elem_of_nil in Hk.
Defined.

Lemma last_line_wins_witness :
  ConfigParsing.parse (one_file twice_width) "a.txt"
  = ConfigParsing.parse (one_file scenario) "b.txt".
Proof.
  apply (last_line_wins _ _ "a.txt" "b.txt" twice_width scenario
           [("width", "3"); ("exit", "9,9"); ("entry", "0,0");
            ("height", "10"); ("output_file", "out.txt"); ("width", "10")]
           scenario_pairs); try reflexivity.
  - split; [repeat constructor |].
    repeat constructor; simpl; intros [?|?]; try discriminate;
      vm_compute; eauto.
  - split; [repeat constructor |].
    repeat constructor; simpl; intros [?|?]; try discriminate;
      vm_compute; eauto.
  - intros key Hk. unfold known_keys in Hk.
    repeat (apply elem_of_cons in Hk as [->|Hk]; [reflexivity |]).
    by apply elem_of_nil in Hk.
Defined.

Lemma first_failing_line_witness :
  ConfigParsing.parse (one_file bad_then_good) "config.txt" =
  Raise (InvalidDimensionsError "Width must be an integer").
Proof.
  apply (first_failing_line _ "config.txt" bad_then_good ["height = 10"]
           ["width = 10"] "width = ten" [("height", "10")]); try reflexivity.
  - repeat constructor.
  - repeat constructor; simpl; intros [?|?]; try discriminate;
      vm_compute; eauto.
  - by apply (fails_width _ "ten").
Defined.

(** ** The shape of keys and values *)

Section shapes.
Import ConfigParsing.

Lemma is_space_lower_char (c : ascii) :
  Py.is_space (Py.lower_char c) = Py.is_space c.
Proof. by destruct c as [[] [] [] [] [] [] [] []]. Qed.

Lemma lower_char_twice (c : ascii) :
  Py.lower_char (Py.lower_char c) = Py.lower_char c.
Proof. by destruct c as [[] [] [] [] [] [] [] []]. Qed.

Lemma lower_twice (s : string) : Py.lower (Py.lower s) = Py.lower s.
Proof.
  induction s as [|a s IH]; simpl; [done |].
  by rewrite lower_char_twice, IH.
Qed.

Lemma lower_trimmed (s : string) : trimmed s → trimmed (Py.lower s).
Proof.
  unfold trimmed. intros [Hs He]. split.
  - destruct s as [|a s]; simpl in *; [done |].
    by rewrite is_space_lower_char.
  - clear Hs. induction s as [|a s IH]; [done |].
    simpl in *. destruct s as [|b s]; simpl in *.
    + by rewrite is_space_lower_char.
    + by apply IH.
Qed.

Lemma strip_trimmed (s : string) : trimmed (Py.strip s).
Proof. destruct (strip_spec s) as (l & r & _ & _ & _ & ? & ?). by split. Qed.

Lemma first_piece_cons (c a : ascii) (s : string) :
  Py.first_piece c (String a s) =
  if Ascii.eqb a c then EmptyString else String a (Py.first_piece c s).
Proof.
  unfold Py.first_piece. simpl. destruct (Ascii.eqb a c); [done |].
  by destruct (Py.split c s).
Qed.

Lemma contains_first_piece (c : ascii) (s : string) :
  Py.contains c (Py.first_piece c s) = false.
Proof.
  induction s as [|a s IH]; [done |].
  rewrite first_piece_cons. destruct (Ascii.eqb a c) eqn:Ha; [done |].
  simpl. by rewrite Ha.
Qed.

Lemma contains_lstrip (c : ascii) (s : string) :
  Py.contains c s = false → Py.contains c (Py.lstrip s) = false.
Proof.
  induction s as [|a s IH]; simpl; [done |].
  destruct (Ascii.eqb a c) eqn:Ha; [done |]. intros Hs.
  destruct (Py.is_space a); [by apply IH |]. simpl. by rewrite Ha.
Qed.

Lemma contains_rstrip (c : ascii) (s : string) :
  Py.contains c s = false → Py.contains c (Py.rstrip s) = false.
Proof.
  induction s as [|a s IH]; simpl; [done |].
  destruct (Ascii.eqb a c) eqn:Ha; [done |]. intros Hs. specialize (IH Hs).
  destruct (Py.rstrip s); simpl in *.
  - destruct (Py.is_space a); simpl; by rewrite ?Ha.
  - by rewrite Ha.
Qed.

Lemma contains_strip (c : ascii) (s : string) :
  Py.contains c s = false → Py.contains c (Py.strip s) = false.
Proof. intros Hs. by apply contains_rstrip, contains_lstrip. Qed.

Lemma parse_line_ok_inv (line k v : string) :
  parse_line line = Ok (k, v) →
  ∃ k0 v0, k = Py.lower (Py.strip k0)
           ∧ v = Py.strip (Py.first_piece "#" v0).
Proof.
  unfold parse_line.
  destruct (Py.contains "=" line).
  { destruct (unpack2 _) as [[k0 v0]|]; simpl; [| done].
    intros [= <- <-]. by exists k0, v0. }
  destruct (Py.contains ":" line); [| done].
  destruct (unpack2 _) as [[k0 v0]|]; simpl; [| done].
  intros [= <- <-]. by exists k0, v0.
Qed.

(** X8.  What [parse_line] returns is normalized: the key is in lower case
    and has white space at neither end; the value has white space at neither
    end and contains no [#]. *)
Theorem parse_line_normalized (line k v : string) :
  parse_line line = Ok (k, v) →
  Py.lower k = k ∧ trimmed k ∧ trimmed v ∧ Py.contains "#" v = false.
Proof.
  intros (k0 & v0 & -> & ->)%parse_line_ok_inv. split_and!.
  - apply lower_twice.
  - apply lower_trimmed, strip_trimmed.
  - apply strip_trimmed.
  - apply contains_strip, contains_first_piece.
Qed.

Lemma last_value_elem (key v : string) (kvs : list (string * string)) :
  last_value key kvs = Some v → (key, v) ∈ kvs.
Proof.
  induction kvs as [|[k' v'] kvs IH]; simpl; [done |].
  destruct (last_value key kvs); [intros [= <-]; right; by apply IH |].
  destruct (String.eqb_spec k' key) as [->|]; [| done].
  intros [= <-]. left.
Qed.

Lemma tokens_normalized (ls : list string) (kvs : list (string * string))
    (k v : string) :
  Forall2 (λ l kv, parse_line l = Ok kv) ls kvs → (k, v) ∈ kvs →
  trimmed v ∧ Py.contains "#" v = false.
Proof.
  intros Htok Hin. apply list_elem_of_lookup in Hin as [i Hi].
  destruct (Forall2_lookup_r _ _ _ _ _ Htok Hi) as (l & _ & Hl).
  apply parse_line_ok_inv in Hl as (k0 & v0 & _ & ->). split.
  - apply strip_trimmed.
  - apply contains_strip, contains_first_piece.
Qed.

(** X9.  The output file and the algorithm of a returned record never
    contain a [#] and have white space at neither end. *)
Theorem parse_ok_strings (fs : filesystem) (filename : string) (c : config) :
  parse fs filename = Ok c →
  (trimmed (cfg_output_file c) ∧ Py.contains "#" (cfg_output_file c) = false)
  ∧ (trimmed (cfg_algorithm c) ∧ Py.contains "#" (cfg_algorithm c) = false).
Proof.
  intros (text & kvs & _ & [Htok _] & Hv)%parse_ok_pairs.
  apply validate_ok_inv in Hv as (_ & _ & _ & _ & Hout & Halg & _).
  simpl in *. split.
  - destruct (last_value "output_file" kvs) as [vo|] eqn:Ho; [| done].
    injection Hout as <-.
    eapply tokens_normalized; [done |]. by apply last_value_elem.
  - rewrite <- Halg.
    destruct (last_value "algorithm" kvs) as [a|] eqn:Ha; simpl.
    + eapply tokens_normalized; [done |]. by apply last_value_elem.
    + by vm_compute.
Qed.

End shapes.

Lemma parse_line_normalized_witness :
  Py.lower "output_file" = "output_file" ∧ trimmed "output_file"
  ∧ trimmed "maze.txt" ∧ Py.contains "#" "maze.txt" = false.
Proof.
  exact (parse_line_normalized "  Output_File = maze.txt # where to write"
           "output_file" "maze.txt" eq_refl).
Defined.

Lemma parse_ok_strings_witness :
  (trimmed "out.txt" ∧ Py.contains "#" "out.txt" = false)
  ∧ (trimmed "prim" ∧ Py.contains "#" "prim" = false).
Proof.
  exact (parse_ok_strings (one_file widest) "config.txt"
           {| ConfigParsing.cfg_width := 1000; ConfigParsing.cfg_height := 1;
              ConfigParsing.cfg_entry := (0, 0);
              ConfigParsing.cfg_exit := (999, 0);
              ConfigParsing.cfg_output_file := "out.txt";
              ConfigParsing.cfg_algorithm := "prim" |} eq_refl).
Defined.

(** ** Coordinates *)

Section coordinate_values.
Import ConfigParsing.

Lemma split_whole (c : ascii) (s : string) :
  Py.contains c s = false → Py.split c s = [s].
Proof.
  induction s as [|a s IH]; simpl; [done |].
  destruct (Ascii.eqb a c); [done |]. intros Hs. by rewrite (IH Hs).
Qed.

Lemma split_first (c : ascii) (a r : string) :
  Py.contains c a = false →
  Py.split c (a +:+ String c r) = a :: Py.split c r.
Proof.
  induction a as [|x a IH]; rewrite ?append_cons, ?append_empty_l; simpl.
  - by rewrite Ascii.eqb_refl.
  - destruct (Ascii.eqb x c); [done |]. intros Ha. by rewrite (IH Ha).
Qed.

Lemma split_one_inv (c : ascii) (s b : string) :
  Py.split c s = [b] → s = b ∧ Py.contains c s = false.
Proof.
  destruct (Py.contains c s) eqn:Hs.
  - destruct (contains_split c s Hs) as (a & r & -> & Ha).
    rewrite (split_first c a r Ha).
    destruct r as [|x r]; [done |]. simpl.
    destruct (Ascii.eqb x c); [done |]. by destruct (Py.split c r).
  - rewrite (split_whole c s Hs). by intros [= ->].
Qed.

Lemma split_two_inv (c : ascii) (s a b : string) :
  Py.split c s = [a; b] →
  s = a +:+ String c b ∧ Py.contains c a = false ∧ Py.contains c b = false.
Proof.
  destruct (Py.contains c s) eqn:Hs.
  - destruct (contains_split c s Hs) as (a' & r & -> & Ha).
    rewrite (split_first c a' r Ha). intros [= -> [-> Hb]%split_one_inv].
    done.
  - by rewrite (split_whole c s Hs).
Qed.

(** X10.  A value is a pair of coordinates exactly when it has one comma, with
    an integer on each side once the white space around it is removed; a value
    with no comma, or with two or more, is refused. *)
Theorem coordinates_exactly (value : string) (x y : Z) :
  coordinates value = Some (x, y) ↔
  ∃ a b, value = a +:+ String "," b
         ∧ Py.contains "," a = false ∧ Py.contains "," b = false
         ∧ Py.int (Py.strip a) = Some x ∧ Py.int (Py.strip b) = Some y.
Proof.
  unfold coordinates. split.
  - destruct (unpack2 (Py.split "," value)) as [[a b]|] eqn:Hsplit;
      simpl; [| done].
    assert (Hab : Py.split "," value = [a; b]).
    { revert Hsplit. unfold unpack2.
      repeat case_match; try done. by intros [= <- <-]. }
    apply split_two_inv in Hab as (-> & Ha & Hb).
    destruct (Py.int (Py.strip a)) as [x'|] eqn:Hx; simpl; [| done].
    destruct (Py.int (Py.strip b)) as [y'|] eqn:Hy; simpl; [| done].
    intros [= <- <-]. by exists a, b.
  - intros (a & b & -> & Ha & Hb & Hx & Hy).
    rewrite (split_first _ _ _ Ha), (split_whole _ _ Hb). simpl.
    by rewrite Hx, Hy.
Qed.

End coordinate_values.

Lemma coordinates_exactly_witness :
  ConfigParsing.coordinates " 3 , -4" = Some (3, -4).
Proof.
  apply (proj2 (coordinates_exactly " 3 , -4" 3 (-4))).
  by exists " 3 ", " -4".
Defined.

(** ** The script *)

Section script.

Lemma parse_raise_is_maze_error (fs : filesystem) (filename : string)
    (e : exn) :
  ConfigParsing.parse fs filename = Raise e → is_maze_error e = true.
Proof.
  unfold ConfigParsing.parse.
  destruct (fs filename) as [text|]; [| by intros [= <-]].
  destruct (ConfigParsing.scan text) as [st|e'] eqn:Hscan; simpl.
  - unfold ConfigParsing.validate. repeat case_match; by intros [= <-].
  - intros [= <-]. apply scan_raise in Hscan. unfold scan_errors in Hscan.
    repeat (apply elem_of_cons in Hscan as [->|Hscan]); try done.
    by apply elem_of_nil in Hscan.
Qed.


End script.

(** ** The dictionary of a [ConfigParser] *)

Section dictionary.
Import ConfigParser.

Lemma parse_inserted (fs : filesystem) (self : loader) :
  ∃ kvs,
    (parse fs self).1 = Loader (filepath self) (inserted kvs (config self))
    ∧ ∀ cfg, (parse fs self).2 = Ok cfg → cfg = inserted kvs (config self).
Proof.
  unfold parse. destruct (fs (filepath self)) as [text|].
  - destruct (loop_inserted (Py.readlines text)) as (kvs & stopped & Hloop).
    rewrite Hloop. exists kvs. simpl. split; [done |].
    intros cfg. destruct stopped; [done | by intros [= <-]].
  - exists []. simpl. split; [by destruct self | done].
Qed.

(** X12.  A load never takes a key out of the dictionary of the loader and
    never changes its path, whether it returns or raises; and the dictionary
    it returns is the one the loader then holds. *)
Theorem parse_keeps_keys (fs : filesystem) (self : loader) :
  filepath (parse fs self).1 = filepath self
  ∧ (∀ key, is_Some (config self !! key) →
            is_Some (config (parse fs self).1 !! key))
  ∧ (∀ cfg, (parse fs self).2 = Ok cfg → config (parse fs self).1 = cfg).
Proof.
  destruct (parse_inserted fs self) as (kvs & -> & Hcfg). simpl.
  split_and!; [done | |].
  - intros key Hkey. rewrite lookup_inserted.
    by destruct (last_value key kvs).
  - intros cfg ->%Hcfg. done.
Qed.

Lemma loop_stops (lines pre post : list string) (l : string)
    (kvs : list (string * string)) (cfg : gmap string string) :
  filter (λ l, negb (Py.is_empty l || Py.startswith "#" l))
         (Py.strip <$> lines) = (pre ++ l :: post)%list →
  Forall2 stored pre kvs →
  Py.contains "=" l = false →
  loop lines cfg
  = (inserted kvs cfg, Some (ValueError ("Invalid line: " +:+ l))).
Proof.
  revert pre kvs cfg. induction lines as [|l0 lines IH]; intros pre kvs cfg.
  - intros Hnil. by destruct pre.
  - rewrite fmap_cons, filter_cons. simpl. unfold skipped.
    destruct (Py.is_empty (Py.strip l0) || Py.startswith "#" (Py.strip l0));
      simpl; [apply IH |].
    destruct pre as [|p pre]; simpl.
    + intros [= -> Hrest] ->%Forall2_nil_inv_l ->. done.
    + intros [= -> Hrest].
      intros (kv & kvs' & (k & v & [Hl Hk] & ->) & Hpre & ->)%Forall2_cons_inv_l.
      intros Hno. rewrite Hl, contains_append, (split1_first _ _ _ Hk). simpl.
      by apply (IH pre).
Qed.

(** X13.  A load that stops at a line without [=] does not undo what it has
    stored: the loader keeps the pairs of the data lines before that line. *)
Theorem error_keeps_stored (fs : filesystem) (self : loader) (text : string)
    (pre post : list string) (l : string) (kvs : list (string * string)) :
  fs (filepath self) = Some text →
  data_lines text = (pre ++ l :: post)%list →
  Forall2 stored pre kvs →
  Py.contains "=" l = false →
  parse fs self
  = (Loader (filepath self) (inserted kvs (config self)),
     Raise (ValueError ("Invalid line: " +:+ l))).
Proof.
  intros Hfile Hlines Hpre Hl. unfold parse.
  by rewrite Hfile, (loop_stops _ _ _ _ _ (config self) Hlines Hpre Hl).
Qed.

Lemma split1_whole (c : ascii) (s : string) :
  Py.contains c s = false → Py.split1 c s = [s].
Proof.
  induction s as [|a s IH]; simpl; [done |].
  destruct (Ascii.eqb a c); [done |]. intros Hs. by rewrite (IH Hs).
Qed.

Lemma split1_two_inv (c : ascii) (s k v : string) :
  Py.split1 c s = [k; v] → Py.contains c k = false.
Proof.
  destruct (Py.contains c s) eqn:Hs.
  - destruct (contains_split c s Hs) as (k' & v' & -> & Hk).
    rewrite (split1_first _ _ _ Hk). by intros [= <- _].
  - by rewrite (split1_whole _ _ Hs).
Qed.

Lemma loop_clean (lines : list string) (cfg : gmap string string) :
  (∀ k v, cfg !! k = Some v → clean_entry k v) →
  ∀ k v, (loop lines cfg).1 !! k = Some v → clean_entry k v.
Proof.
  revert cfg. induction lines as [|l lines IH]; intros cfg Hcfg; [done |].
  simpl. destruct (skipped (Py.strip l)); [by apply IH |].
  destruct (Py.contains "=" (Py.strip l)); simpl; [| done].
  destruct (unpack2 (Py.split1 "=" (Py.strip l))) as [[k0 v0]|] eqn:Hsplit;
    [| done].
  apply IH. intros k v.
  destruct (decide (Py.strip k0 = k)) as [<-|Hne].
  - rewrite lookup_insert_eq. intros [= <-].
    assert (Hk0 : Py.contains "=" k0 = false).
    { revert Hsplit. unfold unpack2. repeat case_match; try done.
      intros [= <- <-]. by eapply split1_two_inv. }
    split_and!; [apply strip_trimmed | by apply contains_strip |
                 apply strip_trimmed].
  - rewrite lookup_insert_ne by done. apply Hcfg.
Qed.

(** X14.  Loads keep the dictionary clean: if every key of the loader is
    trimmed and without [=], and every value trimmed, the same holds after a
    load, whether it returns or raises.  So it holds of all that a new loader
    ever stores. *)
Theorem stored_entries_clean (fs : filesystem) (self : loader) :
  (∀ k v, config self !! k = Some v → clean_entry k v) →
  ∀ k v, config (parse fs self).1 !! k = Some v → clean_entry k v.
Proof.
  intros Hself. unfold parse.
  destruct (fs (filepath self)) as [text|]; [| done].
  pose proof (loop_clean (Py.readlines text) (config self) Hself) as Hloop.
  by destruct (loop (Py.readlines text) (config self)).
Qed.

(** X15.  After a load that returns, the dictionary gives to each key the
    value of the last data line of that key, and to a key without a line the
    value the loader had for it before. *)
Theorem lookup_after_parse (fs : filesystem) (self : loader) (text : string)
    (kvs : list (string * string)) (key : string) :
  fs (filepath self) = Some text →
  Forall2 stored (data_lines text) kvs →
  config (parse fs self).1 !! key =
  match last_value key kvs with
  | Some v => Some v
  | None => config self !! key
  end.
Proof.
  intros Hfile Hkvs. unfold parse.
  rewrite Hfile, (loop_stored _ _ (config self) Hkvs). simpl.
  apply lookup_inserted.
Qed.

Lemma get_coords_lookup (self : loader) (key : string) :
  get_coords self key =
  match config self !! key with
  | None => RaisesKeyError key
  | Some value =>
      match ConfigParsing.coordinates value with
      | Some p => Returns p
      | None =>
          Raises (ValueError
                    ("Invalid coordinates for " +:+ key +:+ ": " +:+ value))
      end
  end.
Proof.
  unfold get_coords, ConfigParsing.coordinates.
  destruct (config self !! key) as [value|]; simpl; [| done].
  destruct (unpack2 _) as [[x y]|]; simpl; [| done].
  destruct (Py.int (Py.strip x)); simpl; [| done].
  by destruct (Py.int (Py.strip y)).
Qed.

Lemma one_of_elem (value : string) (choices : list string) :
  one_of value choices = bool_decide (value ∈ choices).
Proof.
  unfold one_of. induction choices as [|x choices IH]; simpl.
  - done.
  - rewrite IH. destruct (String.eqb_spec value x) as [->|Hne]; simpl.
    + symmetry. apply bool_decide_eq_true. left.
    + apply bool_decide_ext. rewrite elem_of_cons.
      split; [by right | by intros [?|?]].
Qed.

(** X16.  After a load that returns, the getters read the last data line of
    the key: [get_str] returns its value, [get_int] its integer or a
    [ValueError] that quotes the key and the value, [get_coords] its pair or
    such a [ValueError], and [get_bool] compares it, in lower case, with
    true, 1, yes and false, 0, no. *)
Theorem getters_read_last_line (fs : filesystem) (self : loader)
    (text : string) (kvs : list (string * string)) (key v d : string) :
  fs (filepath self) = Some text →
  Forall2 stored (data_lines text) kvs →
  last_value key kvs = Some v →
  get_str (parse fs self).1 key d = v
  ∧ get_int (parse fs self).1 key =
    match Py.int v with
    | Some n => Returns n
    | None =>
        Raises (ValueError ("Invalid integer for " +:+ key +:+ ": " +:+ v))
    end
  ∧ get_coords (parse fs self).1 key =
    match ConfigParsing.coordinates v with
    | Some p => Returns p
    | None =>
        Raises (ValueError ("Invalid coordinates for " +:+ key +:+ ": " +:+ v))
    end
  ∧ get_bool (parse fs self).1 key =
    if bool_decide (Py.lower v ∈ ["true"; "1"; "yes"]) then Returns true
    else if bool_decide (Py.lower v ∈ ["false"; "0"; "no"]) then Returns false
    else Raises (ValueError ("Invalid boolean for " +:+ key +:+ ": " +:+ v)).
Proof.
  intros Hfile Hkvs Hv.
  assert (Hlookup : config (parse fs self).1 !! key = Some v).
  { unfold parse. rewrite Hfile, (loop_stored _ _ (config self) Hkvs). simpl.
    by rewrite lookup_inserted, Hv. }
  rewrite get_coords_lookup. unfold get_str, get_int, get_bool.
  rewrite Hlookup. split_and!; try done.
  by rewrite !one_of_elem.
Qed.

(** X17.  After a load that returns, a key that no data line has and that
    the loader did not hold is missing for every getter: [get_str] returns
    the default, [get_int] raises a [KeyError] that says "Missing key", and
    [get_bool] and [get_coords] raise the bare [KeyError] of the dictionary,
    not a [ValueError]. *)
Theorem getters_missing_key (fs : filesystem) (self : loader)
    (text : string) (kvs : list (string * string)) (key d : string) :
  fs (filepath self) = Some text →
  Forall2 stored (data_lines text) kvs →
  last_value key kvs = None → config self !! key = None →
  get_str (parse fs self).1 key d = d
  ∧ get_int (parse fs self).1 key = RaisesKeyError ("Missing key: " +:+ key)
  ∧ get_coords (parse fs self).1 key = RaisesKeyError key
  ∧ get_bool (parse fs self).1 key = RaisesKeyError key.
Proof.
  intros Hfile Hkvs Hv Hold.
  assert (Hlookup : config (parse fs self).1 !! key = None).
  { unfold parse. rewrite Hfile, (loop_stored _ _ (config self) Hkvs). simpl.
    by rewrite lookup_inserted, Hv. }
  rewrite get_coords_lookup. unfold get_str, get_int, get_bool.
  by rewrite Hlookup.
Qed.

End dictionary.

(** ** The two loaders on the same line *)

Section two_loaders.

Lemma lstrip_append (c : ascii) (p r : string) :
  Py.is_space c = false →
  Py.lstrip (p +:+ String c r) = Py.lstrip p +:+ String c r.
Proof.
  intros Hc. induction p as [|a p IH];
    rewrite ?append_cons, ?append_empty_l; simpl.
  - by rewrite Hc.
  - by destruct (Py.is_space a).
Qed.

Lemma rstrip_append (c : ascii) (q r : string) :
  Py.is_space c = false →
  Py.rstrip (q +:+ String c r) = q +:+ String c (Py.rstrip r).
Proof.
  intros Hc. induction q as [|a q IH];
    rewrite ?append_cons, ?append_empty_l; simpl.
  - destruct (Py.rstrip r); by rewrite ?Hc.
  - rewrite IH. by destruct q.
Qed.

Lemma lstrip_twice (s : string) : Py.lstrip (Py.lstrip s) = Py.lstrip s.
Proof.
  induction s as [|a s IH]; simpl; [done |].
  destruct (Py.is_space a) eqn:Ha; [done |]. simpl. by rewrite Ha.
Qed.

Lemma lstrip_trimmed (s : string) :
  Py.startswith_space s = false → Py.lstrip s = s.
Proof. destruct s as [|a s]; simpl; [done |]. by intros ->. Qed.

Lemma rstrip_trimmed (s : string) :
  Py.endswith_space s = false → Py.rstrip s = s.
Proof.
  induction s as [|a s IH]; [done |]. simpl.
  destruct s as [|b s].
  - simpl. by intros ->.
  - intros Hs. by rewrite (IH Hs).
Qed.

Lemma strip_twice (s : string) : Py.strip (Py.strip s) = Py.strip s.
Proof.
  destruct (strip_trimmed s) as [Hs He]. unfold Py.strip at 1.
  by rewrite (lstrip_trimmed _ Hs), (rstrip_trimmed _ He).
Qed.

Lemma strip_first_piece_strip (c : ascii) (s : string) :
  Py.is_space c = false →
  Py.strip (Py.first_piece c (Py.strip s)) = Py.strip (Py.first_piece c s).
Proof.
  intros Hc. destruct (Py.contains c s) eqn:Hs.
  - destruct (contains_split c s Hs) as (p & r & -> & Hp).
    rewrite (first_piece_first c p r Hp). unfold Py.strip at 2.
    rewrite (lstrip_append c p r Hc), (rstrip_append c _ _ Hc).
    rewrite (first_piece_first c _ _ (contains_lstrip c p Hp)).
    unfold Py.strip. by rewrite lstrip_twice.
  - rewrite (first_piece_whole c s Hs).
    rewrite (first_piece_whole c _ (contains_strip c s Hs)).
    apply strip_twice.
Qed.

(** X18.  On a file whose data lines all have an [=], the two loaders cut
    every line at the same place: the pair [ConfigParsing] reads from a line
    is the pair [ConfigParser] stores for it, with the key put in lower case
    and the value cut at its first [#] and trimmed again. *)
Theorem loaders_agree (text : string) (kvs : list (string * string)) :
  Forall2 stored (data_lines text) kvs →
  Forall2 (λ l kv, ConfigParsing.parse_line l = Ok kv) (data_lines text)
    ((λ kv, (Py.lower kv.1, Py.strip (Py.first_piece "#" kv.2))) <$> kvs).
Proof.
  intros Hkvs. apply Forall2_fmap_r.
  eapply Forall2_impl; [exact Hkvs |]. clear Hkvs.
  intros l kv (k & v & [-> Hk] & ->). simpl.
  unfold ConfigParsing.parse_line.
  rewrite contains_append, (split1_first _ _ _ Hk). simpl.
  by rewrite strip_first_piece_strip.
Qed.

End two_loaders.

Lemma settings_stored : Forall2 stored (data_lines settings) settings_pairs.
Proof.
  repeat constructor.
  - by exists "Width ", " 10 # columns".
  - by exists "entry ", " 3, 4".
  - by exists "solve ", " Yes".
  - by exists "Width ", " 12".
Defined.

Lemma parse_keeps_keys_witness :
  is_Some
    (ConfigParser.config
       (ConfigParser.parse (one_file settings)
          (ConfigParser.Loader "config.txt" {["seed" := "7"]})).1
     !! "seed").
Proof.
  apply (proj1 (proj2 (parse_keeps_keys (one_file settings)
                         (ConfigParser.Loader "config.txt" {["seed" := "7"]})))
           "seed").
  by exists "7".
Defined.

Lemma error_keeps_stored_witness :
  ConfigParser.parse (one_file settings_cut_short)
    (ConfigParser.__init__ "config.txt")
  = (ConfigParser.Loader "config.txt" (<["Width" := "10 # columns"]> ∅),
     Raise (ValueError "Invalid line: entry : 0,0")).
Proof.
  apply (error_keeps_stored (one_file settings_cut_short)
           (ConfigParser.__init__ "config.txt") settings_cut_short
           ["Width = 10 # columns"] ["solve = Yes"] "entry : 0,0"
           [("Width", "10 # columns")]); try reflexivity.
  repeat constructor. by exists "Width ", " 10 # columns".
Defined.

Lemma stored_entries_clean_witness : clean_entry "Width" "12".
Proof.
  apply (stored_entries_clean (one_file settings)
           (ConfigParser.__init__ "config.txt")).
  - intros k v Hkv. simpl in Hkv. by rewrite lookup_empty in Hkv.
  - by vm_compute.
Defined.

Lemma lookup_after_parse_witness :
  ConfigParser.config
    (ConfigParser.parse (one_file settings)
       (ConfigParser.__init__ "config.txt")).1 !! "Width"
  = Some "12".
Proof.
  exact (lookup_after_parse (one_file settings)
           (ConfigParser.__init__ "config.txt") settings settings_pairs
           "Width" eq_refl settings_stored).
Defined.

Lemma getters_read_last_line_witness :
  let self :=
    (ConfigParser.parse (one_file settings)
       (ConfigParser.__init__ "config.txt")).1 in
  (ConfigParser.get_str self "entry" "" = "3, 4"
   ∧ ConfigParser.get_int self "entry"
     = ConfigParser.Raises (ValueError "Invalid integer for entry: 3, 4")
   ∧ ConfigParser.get_coords self "entry" = ConfigParser.Returns (3, 4)
   ∧ ConfigParser.get_bool self "entry"
     = ConfigParser.Raises (ValueError "Invalid boolean for entry: 3, 4"))
  ∧ ConfigParser.get_bool self "solve" = ConfigParser.Returns true
  ∧ ConfigParser.get_int self "Width" = ConfigParser.Returns 12.
Proof.
  split; [| split].
  - exact (getters_read_last_line (one_file settings)
             (ConfigParser.__init__ "config.txt") settings settings_pairs
             "entry" "3, 4" "" eq_refl settings_stored eq_refl).
  - exact (proj2 (proj2 (proj2
             (getters_read_last_line (one_file settings)
                (ConfigParser.__init__ "config.txt") settings settings_pairs
                "solve" "Yes" "" eq_refl settings_stored eq_refl)))).
  - exact (proj1 (proj2
             (getters_read_last_line (one_file settings)
                (ConfigParser.__init__ "config.txt") settings settings_pairs
                "Width" "12" "" eq_refl settings_stored eq_refl))).
Defined.

Lemma getters_missing_key_witness :
  let self :=
    (ConfigParser.parse (one_file settings)
       (ConfigParser.__init__ "config.txt")).1 in
  ConfigParser.get_str self "height" "20" = "20"
  ∧ ConfigParser.get_int self "height"
    = ConfigParser.RaisesKeyError "Missing key: height"
  ∧ ConfigParser.get_coords self "height" = ConfigParser.RaisesKeyError "height"
  ∧ ConfigParser.get_bool self "height" = ConfigParser.RaisesKeyError "height".
Proof.
  exact (getters_missing_key (one_file settings)
           (ConfigParser.__init__ "config.txt") settings settings_pairs
           "height" "20" eq_refl settings_stored eq_refl eq_refl).
Defined.

Lemma loaders_agree_witness :
  Forall2 (λ l kv, ConfigParsing.parse_line l = Ok kv) (data_lines settings)
    [("width", "10"); ("entry", "3, 4"); ("solve", "Yes"); ("width", "12")].
Proof.
  exact (loaders_agree settings settings_pairs settings_stored).
Defined.

(** ** The errors of [ConfigParser.parse] *)

Section loader_errors.
Import ConfigParser.

Lemma loop_error (lines : list string) (cfg : gmap string string) (e : exn) :
  (loop lines cfg).2 = Some e →
  ∃ l, l ∈ filter (λ l, negb (Py.is_empty l || Py.startswith "#" l))
                  (Py.strip <$> lines)
       ∧ Py.contains "=" l = false
       ∧ e = ValueError ("Invalid line: " +:+ l).
Proof.
  revert cfg. induction lines as [|l0 lines IH]; intros cfg; [done |].
  rewrite fmap_cons, filter_cons. simpl. unfold skipped.
  destruct (Py.is_empty (Py.strip l0) || Py.startswith "#" (Py.strip l0));
    simpl; [apply IH |].
  destruct (Py.contains "=" (Py.strip l0)) eqn:Hl0; simpl.
  - destruct (split1_contains _ _ Hl0) as (k & v & ->). simpl.
    intros (l & Hl & Hno & ->)%IH. exists l. split_and!; [by right | done..].
  - intros [= <-]. exists (Py.strip l0). split_and!; [by left | done..].
Qed.



End loader_errors.

(** ** Tokens read back *)

Section tokens.
Import ConfigParsing.

Lemma contains_lower_eq (s : string) :
  Py.contains "=" (Py.lower s) = Py.contains "=" s.
Proof.
  induction s as [|a s IH]; simpl; [done |]. rewrite IH.
  by destruct a as [[] [] [] [] [] [] [] []].
Qed.

Lemma contains_append_l (c : ascii) (a b : string) :
  Py.contains c (a +:+ b) = false → Py.contains c a = false.
Proof.
  induction a as [|x a IH]; rewrite ?append_cons; simpl; [done |].
  by destruct (Ascii.eqb x c).
Qed.

Lemma parse_line_key (line k v : string) :
  parse_line line = Ok (k, v) → Py.contains "=" k = false.
Proof.
  unfold parse_line.
  destruct (Py.contains "=" line) eqn:Heq.
  { destruct (contains_split _ _ Heq) as (k0 & v0 & -> & Hk0).
    rewrite (split1_first _ _ _ Hk0). simpl. intros [= <- _].
    rewrite contains_lower_eq. by apply contains_strip. }
  destruct (Py.contains ":" line) eqn:Hco; [| done].
  destruct (contains_split _ _ Hco) as (k0 & v0 & -> & Hk0).
  rewrite (split1_first _ _ _ Hk0). simpl. intros [= <- _].
  rewrite contains_lower_eq. apply contains_strip.
  by eapply contains_append_l.
Qed.

(** X21.  A pair read by [parse_line] is in normal form: written back as
    [key=value] and read again, it gives the same pair. *)
Theorem parse_line_round_trip (line k v : string) :
  parse_line line = Ok (k, v) →
  parse_line (k +:+ String "=" v) = Ok (k, v).
Proof.
  intros Hline. pose proof (parse_line_key _ _ _ Hline) as Hk.
  apply parse_line_ok_inv in Hline as (k0 & v0 & -> & ->).
  unfold parse_line at 1.
  rewrite contains_append, (split1_first _ _ _ Hk). simpl.
  rewrite (first_piece_whole "#")
    by apply contains_strip, contains_first_piece.
  rewrite strip_twice. f_equal. f_equal.
  destruct (lower_trimmed _ (strip_trimmed k0)) as [Hs He].
  unfold Py.strip at 1.
  by rewrite (lstrip_trimmed _ Hs), (rstrip_trimmed _ He), lower_twice.
Qed.

End tokens.



Lemma parse_line_round_trip_witness :
  ConfigParsing.parse_line "output_file=maze.txt"
  = Ok ("output_file", "maze.txt").
Proof.
  exact (parse_line_round_trip "  Output_File : maze.txt # where to write"
           "output_file" "maze.txt" eq_refl).
Defined.
